(** * Category progress bar: the calculator and its view

  A shallow embedding of [computeCategoryProgress] and [CategoryProgressBar]
  from [CategoryProgressBar.tsx], in its two drafts:

  - [Simple]: the two-state draft (states within-budget / over-budget);
  - [TemplateAware]: the three-state draft with the optional [template].

  Amounts are integer cents, as the field comments of [ProgressParams] say,
  so they are [Z].  Ratios are quotients of amounts and live in [Q]: the
  rounding of IEEE doubles is abstracted by exact rational arithmetic.
  A JavaScript division whose divisor is zero yields Infinity or NaN; the
  embedding makes that outcome explicit as [None] in a small error monad,
  so that "the result is a finite number" is the statement "the result is
  [Some]". *)

From Stdlib Require Import ZArith QArith Qminmax Qround.
From Stdlib Require Import Lia Lqa Bool String List.
Import ListNotations.

Local Open Scope Z_scope.

(** ** Numbers *)

Module Num.

(** The monad of computations that may leave the finite numbers. *)
Definition M (A : Type) : Type := option A.

Definition ret {A : Type} (a : A) : M A := Some a.

Definition bind {A B : Type} (m : M A) (k : A -> M B) : M B :=
  match m with
  | Some a => k a
  | None => None
  end.

(** [n / d] on numbers: finite exactly when the divisor is not zero. *)
Definition div (n d : Q) : M Q :=
  if Qeq_bool d 0 then None else Some (n / d)%Q.

(** [Math.abs] on an integer amount. *)
Definition Math_abs (x : Z) : Z := Z.abs x.

(** [Math.min(x, y)] on finite numbers. *)
Definition Math_min (x y : Q) : Q := Qmin x y.

(** [Math.round]: the nearest integer, halves rounded up. *)
Definition Math_round (x : Q) : Z := Qfloor (x + (1 # 2))%Q.

(** An integer amount used as an operand of [/] or [*]. *)
Definition num (z : Z) : Q := inject_Z z.

(** [x > 0] on a finite number. *)
Definition gt0 (x : Q) : bool := negb (Qle_bool x 0).

End Num.

Notation "x <- m ;; k" := (Num.bind m (fun x => k))
(at level 61, m at next level, right associativity).

(** ** What the view reads and what it produces *)

Module UI.

(** The hooks the components call: [useFeatureFlag(name)],
    [useGlobalPref(name)] (a boolean preference or undefined) and the
    formatter returned by [useFormat()], applied at kind 'financial'. *)
Record Env : Type := mkEnv {
  useFeatureFlag : string -> bool;
  useGlobalPref : string -> option bool;
  useFormat : Z -> string
}.

(** The theme tokens the bar uses. *)
Inductive Color : Type :=
| budgetNumberNegative
| templateNumberUnderFunded
| templateNumberFunded
| tableBackground.

(** One entry of [tooltipParts]; the source joins them with a bullet. *)
Inductive TooltipPart : Type :=
| PercentOfBudgetSpent (percent : Z)
| PercentOfTemplateSpent (percent : Z)
| Template (text : string)
| Budgeted (text : string)
| Spent (text : string)
| Balance (text : string).

(** An absolutely positioned segment of the bar; [left] and [width] are
    percentages of the track. *)
Record Fill : Type := mkFill {
  left : Q;
  width : Q;
  borderRadius : Z;
  backgroundColor : Color;
  opacity : option Q;
  brightness : option Q
}.

(** A JSX child: [false] and [undefined] render nothing, a number renders
    as text. *)
Inductive Child : Type :=
| nothing
| text (s : string)
| view (f : Fill).

(** The tooltip around the track and its children. *)
Record Bar : Type := mkBar {
  tooltipContent : list TooltipPart;
  trackColor : Color;
  children : list Child
}.

(** What a component returns. *)
Inductive ReactNode : Type :=
| null
| element (b : Bar).

(** A tooltip line pushed under a condition. *)
Definition pushIf (c : bool) (p : TooltipPart) : list TooltipPart :=
  if c then [p] else [].

End UI.

(** ** The two-state draft *)

Module Simple.

Inductive State : Type :=
| within_budget
| over_budget.

Record ProgressParams : Type := mkParams {
  assigned : Z;
  activity : Z;
  balance : Z
}.

Record ProgressResult : Type := mkResult {
  baselineAmount : Z;
  progressRatio : Q;
  overflowRatio : Q;
  remaining : Z;
  state : State
}.

Definition computeCategoryProgress (params : ProgressParams)
  : Num.M ProgressResult :=
  let '(mkParams assigned activity balance) := params in
  let spent := Num.Math_abs activity in
  (* No budget case *)
  if assigned <=? 0 then
    if spent <=? 0 then
      Num.ret {| baselineAmount := 0;
                 progressRatio := 0;
                 overflowRatio := 0;
                 remaining := 0;
                 state := within_budget |}
    else
      (* Spent something but no budget *)
      Num.ret {| baselineAmount := spent;
                 progressRatio := 1;
                 overflowRatio := 0;
                 remaining := balance;
                 state := over_budget |}
  else
  (* Budget exists (assigned > 0) *)
  if spent >? assigned then
    overflow <- Num.div (Num.num (spent - assigned)) (Num.num assigned) ;;
    Num.ret {| baselineAmount := assigned;
               progressRatio := 1;
               overflowRatio := overflow;
               remaining := balance;
               state := over_budget |}
  else
    (* spent <= assigned (covers 0%, any %, and exactly 100%) *)
    ratio <- Num.div (Num.num spent) (Num.num assigned) ;;
    Num.ret {| baselineAmount := assigned;
               progressRatio := ratio;
               overflowRatio := 0;
               remaining := balance;
               state := within_budget |}.

(** Returns color for the progress bar based on state. *)
Definition getProgressBarColor (s : State) : UI.Color :=
  match s with
  | over_budget => UI.budgetNumberNegative
  | within_budget => UI.templateNumberFunded
  end.

Definition CategoryProgressBar (env : UI.Env) (props : ProgressParams)
  : Num.M UI.ReactNode :=
  let '(mkParams assigned activity balance) := props in
  let progressBarEnabled := UI.useFeatureFlag env "progressBar" in
  let format := UI.useFormat env in
  progress <- computeCategoryProgress (mkParams assigned activity balance) ;;
  let fillColor := getProgressBarColor (state progress) in
  (* Compute tooltip text *)
  let tooltipParts :=
    UI.pushIf (baselineAmount progress >? 0)
      (UI.PercentOfBudgetSpent
         (Num.Math_round
            ((progressRatio progress + overflowRatio progress) * 100)%Q))
    ++ UI.pushIf (negb (assigned =? 0)) (UI.Budgeted (format assigned))
    ++ UI.pushIf (negb (activity =? 0))
         (UI.Spent (format (Num.Math_abs activity)))
    ++ UI.pushIf (negb (balance =? 0)) (UI.Balance (format balance)) in
  (* Don't render if feature is disabled or no baseline *)
  if negb progressBarEnabled || (baselineAmount progress <=? 0) then
    Num.ret UI.null
  else
    let total := (progressRatio progress + overflowRatio progress)%Q in
    (* Normal progress bar fill *)
    fillWidth <-
      (if Num.gt0 (overflowRatio progress) then
         share <- Num.div (progressRatio progress) total ;;
         Num.ret (share * 100)%Q
       else Num.ret (progressRatio progress * 100)%Q) ;;
    (* Overflow fill (dark red) for overspending *)
    overflowFill <-
      (if Num.gt0 (overflowRatio progress) then
         share <- Num.div (progressRatio progress) total ;;
         rest <- Num.div (overflowRatio progress) total ;;
         Num.ret
           (UI.view
              (UI.mkFill (share * 100)%Q (rest * 100)%Q 0 fillColor None
                 (Some (72 # 100))))
       else Num.ret UI.nothing) ;;
    Num.ret
      (UI.element
         (UI.mkBar tooltipParts UI.tableBackground
            [ UI.view
                (UI.mkFill 0 fillWidth
                   (if Num.gt0 (overflowRatio progress) then 0 else 3)
                   fillColor None None);
              overflowFill ])).

End Simple.


(** ** The template-aware draft *)

Module TemplateAware.

Inductive State : Type :=
| funded
| underfunded
| over_budget.

(** [template] is the optional field [template?: number]. *)
Record ProgressParams : Type := mkParams {
  assigned : Z;
  activity : Z;
  balance : Z;
  template : option Z
}.

Record ProgressResult : Type := mkResult {
  baselineAmount : Z;
  spentRatio : Q;
  budgetedRatio : Q;
  overflowRatio : Q;
  remaining : Z;
  state : State
}.

(** The destructuring default [template = 0]. *)
Definition orZero (t : option Z) : Z :=
  match t with
  | Some v => v
  | None => 0
  end.

Definition computeCategoryProgress (params : ProgressParams)
  : Num.M ProgressResult :=
  let '(mkParams assigned activity balance template_) := params in
  let template := orZero template_ in
  let spent := Num.Math_abs activity in
  let hasTemplate := template >? 0 in
  budgetedRatio <-
    (if hasTemplate then
       q <- Num.div (Num.num assigned) (Num.num template) ;;
       Num.ret (Num.Math_min q 1)
     else Num.ret 1%Q) ;;
  (* No budget case *)
  if assigned <=? 0 then
    if spent <=? 0 then
      Num.ret {| baselineAmount := 0;
                 spentRatio := 0;
                 budgetedRatio := 0;
                 overflowRatio := 0;
                 remaining := 0;
                 state := funded |}
    else
      (* Spent something but no budget *)
      Num.ret {| baselineAmount := spent;
                 spentRatio := 1;
                 budgetedRatio := 0;
                 overflowRatio := 0;
                 remaining := balance;
                 state := over_budget |}
  else
  (* Budget exists (assigned > 0) *)
  if spent >? assigned then
    overflow <- Num.div (Num.num (spent - assigned)) (Num.num assigned) ;;
    Num.ret {| baselineAmount := assigned;
               spentRatio := 1;
               budgetedRatio := 1;
               overflowRatio := overflow;
               remaining := balance;
               state := over_budget |}
  else
    let isUnderfunded := hasTemplate && (assigned <? template) in
    let baselineAmount_ := if hasTemplate then template else assigned in
    spentRatio_ <-
      (if assigned >? 0 then
         q <- Num.div (Num.num spent) (Num.num assigned) ;;
         Num.ret (Num.Math_min q 1 * budgetedRatio)%Q
       else Num.ret 0%Q) ;;
    (* spent <= assigned (covers 0%, any %, and exactly 100%), no overspend *)
    Num.ret {| baselineAmount := baselineAmount_;
               spentRatio := spentRatio_;
               budgetedRatio := budgetedRatio;
               overflowRatio := 0;
               remaining := balance;
               state := if isUnderfunded then underfunded else funded |}.

(** Returns color for the progress bar based on state. *)
Definition getProgressBarColor (s : State) : UI.Color :=
  match s with
  | over_budget => UI.budgetNumberNegative
  | underfunded => UI.templateNumberUnderFunded
  | funded => UI.templateNumberFunded
  end.

(** [template && template > 0] used as a condition. *)
Definition templateSet (t : option Z) : bool :=
  match t with
  | Some v => negb (v =? 0) && (v >? 0)
  | None => false
  end.

Definition CategoryProgressBar (env : UI.Env) (props : ProgressParams)
  : Num.M UI.ReactNode :=
  let '(mkParams assigned activity balance template) := props in
  let progressBarEnabled := UI.useFeatureFlag env "progressBar" in
  let format := UI.useFormat env in
  progress <-
    computeCategoryProgress (mkParams assigned activity balance template) ;;
  let fillColor := getProgressBarColor (state progress) in
  (* Compute tooltip text *)
  let percent :=
    Num.Math_round
      ((spentRatio progress + overflowRatio progress) * 100)%Q in
  let tooltipParts :=
    UI.pushIf (baselineAmount progress >? 0)
      (if templateSet template then UI.PercentOfTemplateSpent percent
       else UI.PercentOfBudgetSpent percent)
    ++ UI.pushIf (templateSet template)
         (UI.Template (format (orZero template)))
    ++ UI.pushIf (negb (assigned =? 0)) (UI.Budgeted (format assigned))
    ++ UI.pushIf (negb (activity =? 0))
         (UI.Spent (format (Num.Math_abs activity)))
    ++ UI.pushIf (negb (balance =? 0)) (UI.Balance (format balance)) in
  (* Don't render if feature is disabled or no baseline *)
  if negb progressBarEnabled || (baselineAmount progress <=? 0) then
    Num.ret UI.null
  else
    let total := (spentRatio progress + overflowRatio progress)%Q in
    (* Subtle budgeted fill (template baseline): the value of
       [template && template > 0 && progress.budgetedRatio > 0 && <View/>] *)
    let budgetedFill :=
      match template with
      | None => UI.nothing
      | Some v =>
          if v =? 0 then UI.text "0"
          else if (v >? 0) && Num.gt0 (budgetedRatio progress) then
            UI.view
              (UI.mkFill 0 (budgetedRatio progress * 100)%Q 3 fillColor
                 (Some (35 # 100)) None)
          else UI.nothing
      end in
    (* Normal progress bar fill *)
    fillWidth <-
      (if Num.gt0 (overflowRatio progress) then
         share <- Num.div (spentRatio progress) total ;;
         Num.ret (share * 100)%Q
       else Num.ret (spentRatio progress * 100)%Q) ;;
    (* Overflow fill (dark red) for overspending *)
    overflowFill <-
      (if Num.gt0 (overflowRatio progress) then
         share <- Num.div (spentRatio progress) total ;;
         rest <- Num.div (overflowRatio progress) total ;;
         Num.ret
           (UI.view
              (UI.mkFill (share * 100)%Q (rest * 100)%Q 0 fillColor None
                 (Some (72 # 100))))
       else Num.ret UI.nothing) ;;
    Num.ret
      (UI.element
         (UI.mkBar tooltipParts UI.tableBackground
            [ budgetedFill;
              UI.view
                (UI.mkFill 0 fillWidth
                   (if Num.gt0 (overflowRatio progress) then 0 else 3)
                   fillColor None None);
              overflowFill ])).

End TemplateAware.

(** ** The row that hosts the bar *)

Module ExpenseCategory.

(** [progressBarEnabled && showProgressBarsPref !== false]: the row's
    "should bars be shown" decision, from the feature flag and the
    [showProgressBars] global preference. *)
Definition showProgressBars (env : UI.Env) : bool :=
  let progressBarEnabled := UI.useFeatureFlag env "progressBar" in
  let showProgressBarsPref := UI.useGlobalPref env "showProgressBars" in
  progressBarEnabled
  && negb (match showProgressBarsPref with
           | Some false => true
           | _ => false
           end).

End ExpenseCategory.

(** ** Template goals per month *)

Module TemplateGoalContext.

(** A JavaScript object used as a map from string keys (here month names and
    category ids), most recent assignment first: [set k v o] is
    [o[k] = v], and [get k o] is [o[k]], undefined ([None]) for a key that
    was never assigned. *)
Definition Obj (V : Type) : Type := list (string * V).

Fixpoint get {V : Type} (k : string) (o : Obj V) : option V :=
  match o with
  | [] => None
  | (k', v) :: o' => if String.eqb k k' then Some v else get k o'
  end.

Definition set {V : Type} (k : string) (v : V) (o : Obj V) : Obj V :=
  (k, v) :: o.

(** [Record<string, number | null>]: a goal in cents, or null. *)
Definition TemplateGoalsByCategory : Type := Obj (option Z).

(** [Record<string, TemplateGoalsByCategory>]. *)
Definition TemplateGoalsByMonth : Type := Obj TemplateGoalsByCategory.

(** [Array.from({ length: numMonths }, (_, index) =>
    monthUtils.addMonths(startMonth, index))]; [addMonths] is the month
    arithmetic of [loot-core/shared/months]. *)
Definition months (addMonths : string -> Z -> string) (startMonth : string)
  (numMonths : nat) : list string :=
  map (fun index => addMonths startMonth (Z.of_nat index)) (seq 0 numMonths).

(** One element of [entries]: the goals the server sent for the month, or
    the empty object when the request failed ([send month = None]). *)
Definition entry (send : string -> option TemplateGoalsByCategory)
  (month : string) : string * TemplateGoalsByCategory :=
  match send month with
  | Some goals => (month, goals)
  | None => (month, [])
  end.

(** [loadTemplateGoals]: the value it passes to [setTemplateGoalsByMonth],
    or [None] when it returns without setting the state.  [send month] is
    the outcome of [send('budget/get-template-goals', { month })];
    [mounted] is the flag as read after all requests have settled. *)
Definition loadTemplateGoals
  (send : string -> option TemplateGoalsByCategory)
  (enabled mounted : bool) (months : list string)
  : option TemplateGoalsByMonth :=
  if negb enabled then Some []
  else
    let entries := map (entry send) months in
    if negb mounted then None
    else
      Some
        (fold_left
           (fun all '(month, goals) => set month goals all)
           entries []).

(** [templateGoalsByMonth[month] ?? {}]. *)
Definition useTemplateGoalsForMonth
  (templateGoalsByMonth : TemplateGoalsByMonth) (month : string)
  : TemplateGoalsByCategory :=
  match get month templateGoalsByMonth with
  | Some goals => goals
  | None => []
  end.

(** [templateGoalsByMonth[month]?.[categoryId] ?? null]. *)
Definition useTemplateGoal (templateGoalsByMonth : TemplateGoalsByMonth)
  (categoryId month : string) : option Z :=
  match get month templateGoalsByMonth with
  | Some goals =>
      match get categoryId goals with
      | Some (Some goal) => Some goal
      | Some None => None
      | None => None
      end
  | None => None
  end.

End TemplateGoalContext.

(** * Properties *)

(** ** Arithmetic of ratios *)

Section Ratios.

Variables n d : Z.

Lemma div_num_nonzero :
  d <> 0 ->
  Num.div (Num.num n) (Num.num d) = Some (Num.num n / Num.num d)%Q.
Proof.
  intros Hd. unfold Num.div, Num.num.
  destruct (Qeq_bool (inject_Z d) 0) eqn:E; [|reflexivity].
  apply Qeq_bool_iff in E. unfold Qeq in E. simpl in E. lia.
Qed.

Hypothesis d_pos : 0 < d.

Let d_posQ : (0 < inject_Z d)%Q.
Proof. change 0%Q with (inject_Z 0). rewrite <- Zlt_Qlt. exact d_pos. Qed.

Lemma num_div_nonneg : 0 <= n -> (0 <= Num.num n / Num.num d)%Q.
Proof.
  intros Hn. unfold Num.num. apply Qle_shift_div_l; [exact d_posQ|].
  rewrite Qmult_0_l. change 0%Q with (inject_Z 0).
  rewrite <- Zle_Qle. exact Hn.
Qed.

Lemma num_div_pos : 0 < n -> (0 < Num.num n / Num.num d)%Q.
Proof.
  intros Hn. unfold Num.num. apply Qlt_shift_div_l; [exact d_posQ|].
  rewrite Qmult_0_l. change 0%Q with (inject_Z 0).
  rewrite <- Zlt_Qlt. exact Hn.
Qed.

Lemma num_div_le_1 : n <= d -> (Num.num n / Num.num d <= 1)%Q.
Proof.
  intros Hn. unfold Num.num. apply Qle_shift_div_r; [exact d_posQ|].
  rewrite Qmult_1_l. rewrite <- Zle_Qle. exact Hn.
Qed.

End Ratios.

Lemma min1_bounds (x : Q) : (0 <= x)%Q -> (0 <= Num.Math_min x 1 <= 1)%Q.
Proof.
intros Hx. unfold Num.Math_min. split.
- apply Q.min_glb; [exact Hx | discriminate].
- apply Q.le_min_r.
Qed.

Lemma mul_unit_interval (x y : Q) :
(0 <= x <= 1)%Q -> (0 <= y <= 1)%Q -> (0 <= x * y <= 1)%Q.
Proof. intros [? ?] [? ?]. split; nra. Qed.

Lemma gt0_true (x : Q) : Num.gt0 x = true <-> (0 < x)%Q.
Proof.
unfold Num.gt0. rewrite negb_true_iff.
destruct (Qle_bool x 0) eqn:E.
- apply Qle_bool_iff in E. split; [discriminate | intros H; lra].
- split; [intros _ | reflexivity].
  apply Qnot_le_lt. intros H. apply Qle_bool_iff in H. congruence.
Qed.

(** ** The branches of the calculator *)

(** Each lemma names one branch by its guard and gives the record the
  source returns there. *)

Section SimpleBranches.

Variables assigned activity balance : Z.
Let params := Simple.mkParams assigned activity balance.
Let spent := Z.abs activity.

Lemma simple_quiescent :
  assigned <= 0 -> spent = 0 ->
  Simple.computeCategoryProgress params
  = Some (Simple.mkResult 0 0 0 0 Simple.within_budget).
Proof.
  intros Ha Hs. subst params spent. cbn.
  destruct (Z.leb_spec assigned 0); [|lia].
  unfold Num.Math_abs. rewrite Hs. reflexivity.
Qed.

Lemma simple_no_budget :
  assigned <= 0 -> 0 < spent ->
  Simple.computeCategoryProgress params
  = Some (Simple.mkResult spent 1 0 balance Simple.over_budget).
Proof.
  intros Ha Hs. subst params spent. cbn.
  destruct (Z.leb_spec assigned 0); [|lia].
  unfold Num.Math_abs. destruct (Z.leb_spec (Z.abs activity) 0); [lia|].
  reflexivity.
Qed.

Lemma simple_over :
  0 < assigned -> assigned < spent ->
  Simple.computeCategoryProgress params
  = Some (Simple.mkResult assigned 1
            (Num.num (spent - assigned) / Num.num assigned)
            balance Simple.over_budget).
Proof.
  intros Ha Hs. subst params spent. cbn.
  destruct (Z.leb_spec assigned 0); [lia|].
  unfold Num.Math_abs. destruct (Z.gtb_spec (Z.abs activity) assigned); [|lia].
  rewrite div_num_nonzero by lia. reflexivity.
Qed.

Lemma simple_within :
  0 < assigned -> spent <= assigned ->
  Simple.computeCategoryProgress params
  = Some (Simple.mkResult assigned (Num.num spent / Num.num assigned) 0
            balance Simple.within_budget).
Proof.
  intros Ha Hs. subst params spent. cbn.
  destruct (Z.leb_spec assigned 0); [lia|].
  unfold Num.Math_abs. destruct (Z.gtb_spec (Z.abs activity) assigned); [lia|].
  rewrite div_num_nonzero by lia. reflexivity.
Qed.

End SimpleBranches.

Section TemplateBranches.

Variables assigned activity balance : Z.
Variable template_ : option Z.
Let params := TemplateAware.mkParams assigned activity balance template_.
Let spent := Z.abs activity.
Let template := TemplateAware.orZero template_.

(** The ratio computed before the branches is always a finite number. *)
Lemma template_budgeted_finite :
  (if template >? 0 then
     q <- Num.div (Num.num assigned) (Num.num template) ;;
     Num.ret (Num.Math_min q 1)
   else Num.ret 1%Q)
  = Some (if template >? 0
          then Num.Math_min (Num.num assigned / Num.num template) 1
          else 1%Q).
Proof.
  destruct (Z.gtb_spec template 0); [|reflexivity].
  rewrite div_num_nonzero by lia. reflexivity.
Qed.

Ltac enter :=
  unfold params, TemplateAware.computeCategoryProgress;
  try unfold spent in *;
  cbv beta iota zeta; fold template;
  rewrite template_budgeted_finite; cbn [Num.bind]; unfold Num.Math_abs.

Lemma template_quiescent :
  assigned <= 0 -> spent = 0 ->
  TemplateAware.computeCategoryProgress params
  = Some (TemplateAware.mkResult 0 0 0 0 0 TemplateAware.funded).
Proof.
  intros Ha Hs. enter.
  destruct (Z.leb_spec assigned 0); [|lia].
  rewrite Hs. reflexivity.
Qed.

Lemma template_no_budget :
  assigned <= 0 -> 0 < spent ->
  TemplateAware.computeCategoryProgress params
  = Some (TemplateAware.mkResult spent 1 0 0 balance
            TemplateAware.over_budget).
Proof.
  intros Ha Hs. enter.
  destruct (Z.leb_spec assigned 0); [|lia].
  destruct (Z.leb_spec (Z.abs activity) 0); [lia|]. reflexivity.
Qed.

Lemma template_over :
  0 < assigned -> assigned < spent ->
  TemplateAware.computeCategoryProgress params
  = Some (TemplateAware.mkResult assigned 1 1
            (Num.num (spent - assigned) / Num.num assigned)
            balance TemplateAware.over_budget).
Proof.
  intros Ha Hs. enter.
  destruct (Z.leb_spec assigned 0); [lia|].
  destruct (Z.gtb_spec (Z.abs activity) assigned); [|lia].
  rewrite div_num_nonzero by lia. reflexivity.
Qed.

Lemma template_within :
  0 < assigned -> spent <= assigned ->
  TemplateAware.computeCategoryProgress params
  = Some (TemplateAware.mkResult
            (if template >? 0 then template else assigned)
            (Num.Math_min (Num.num spent / Num.num assigned) 1
             * (if template >? 0
                then Num.Math_min (Num.num assigned / Num.num template) 1
                else 1))
            (if template >? 0
             then Num.Math_min (Num.num assigned / Num.num template) 1
             else 1)
            0 balance
            (if (template >? 0) && (assigned <? template)
             then TemplateAware.underfunded else TemplateAware.funded)).
Proof.
  intros Ha Hs. enter.
  destruct (Z.leb_spec assigned 0); [lia|].
  destruct (Z.gtb_spec (Z.abs activity) assigned); [lia|].
  destruct (Z.gtb_spec assigned 0); [|lia].
  rewrite div_num_nonzero by lia. reflexivity.
Qed.

End TemplateBranches.

(** ** Case analysis on the guards *)

(** The four branches, in source order of their guards; [spent] is never
    negative, so [spent <= 0] is [spent = 0]. *)
Lemma branch_cases (assigned activity : Z) :
  let spent := Z.abs activity in
  (assigned <= 0 /\ spent = 0)
  \/ (assigned <= 0 /\ 0 < spent)
  \/ (0 < assigned /\ assigned < spent)
  \/ (0 < assigned /\ spent <= assigned).
Proof. cbv zeta. lia. Qed.

Ltac by_branch a act :=
  destruct (branch_cases a act) as [[? ?]|[[? ?]|[[? ?]|[? ?]]]].

(** ** Invariants of the result *)

Lemma simple_invariants (assigned activity balance : Z) :
  exists r,
    Simple.computeCategoryProgress (Simple.mkParams assigned activity balance)
    = Some r
    /\ (0 <= Simple.progressRatio r <= 1)%Q
    /\ (0 <= Simple.overflowRatio r)%Q
    /\ ((0 < Simple.overflowRatio r)%Q -> Simple.progressRatio r = 1%Q)
    /\ 0 <= Simple.baselineAmount r
    /\ (Simple.baselineAmount r = 0 ->
        Simple.progressRatio r = 0%Q /\ Simple.overflowRatio r = 0%Q).
Proof.
  by_branch assigned activity; eexists; split.
  - apply simple_quiescent; assumption.
  - cbn. repeat split; try lia; try discriminate; reflexivity.
  - apply simple_no_budget; assumption.
  - cbn. repeat split; try lia; discriminate.
  - apply simple_over; assumption.
  - cbn. repeat split; try lia; try discriminate.
    apply Qlt_le_weak, num_div_pos; lia.
  - apply simple_within; assumption.
  - cbn. repeat split; try lia; try discriminate.
    + apply num_div_nonneg; lia.
    + apply num_div_le_1; lia.
Qed.

Lemma budgeted_formula_bounds (assigned template : Z) :
  0 < assigned ->
  (0 <= (if template >? 0
         then Num.Math_min (Num.num assigned / Num.num template) 1
         else 1) <= 1)%Q.
Proof.
  intros Ha. destruct (Z.gtb_spec template 0).
  - apply min1_bounds, num_div_nonneg; lia.
  - split; discriminate.
Qed.

Lemma template_invariants (assigned activity balance : Z)
  (template : option Z) :
  exists r,
    TemplateAware.computeCategoryProgress
      (TemplateAware.mkParams assigned activity balance template)
    = Some r
    /\ (0 <= TemplateAware.spentRatio r <= 1)%Q
    /\ (0 <= TemplateAware.overflowRatio r)%Q
    /\ ((0 < TemplateAware.overflowRatio r)%Q ->
        TemplateAware.spentRatio r = 1%Q)
    /\ 0 <= TemplateAware.baselineAmount r
    /\ (TemplateAware.baselineAmount r = 0 ->
        TemplateAware.spentRatio r = 0%Q
        /\ TemplateAware.overflowRatio r = 0%Q).
Proof.
  by_branch assigned activity; eexists; split.
  - apply template_quiescent; assumption.
  - cbn. repeat split; try lia; try discriminate; reflexivity.
  - apply template_no_budget; assumption.
  - cbn. repeat split; try lia; discriminate.
  - apply template_over; assumption.
  - cbn. repeat split; try lia; try discriminate.
    apply Qlt_le_weak, num_div_pos; lia.
  - apply template_within; assumption.
  - cbn [TemplateAware.spentRatio TemplateAware.overflowRatio
         TemplateAware.baselineAmount].
    assert (Hm : (0 <= Num.Math_min
                         (Num.num (Z.abs activity) / Num.num assigned) 1
                  <= 1)%Q)
      by (apply min1_bounds, num_div_nonneg; lia).
    pose proof (budgeted_formula_bounds assigned
                  (TemplateAware.orZero template) H) as Hb.
    pose proof (mul_unit_interval _ _ Hm Hb) as Hp.
    repeat split; try apply Hp; try discriminate;
      destruct (Z.gtb_spec (TemplateAware.orZero template) 0); lia.
Qed.

(** ** The view *)

Lemma div_pos_divisor (n d : Q) :
  (0 < d)%Q -> Num.div n d = Some (n / d)%Q.
Proof.
  intros Hd. unfold Num.div.
  destruct (Qeq_bool d 0) eqn:E; [|reflexivity].
  apply Qeq_bool_iff in E. lra.
Qed.

(** The widths of the two segments are finite: when there is overflow the
    divisor [ratio + overflow] is positive. *)
Lemma segment_shares_finite (ratio overflow : Q) :
  (0 <= ratio)%Q -> (0 <= overflow)%Q -> Num.gt0 overflow = true ->
  Num.div ratio (ratio + overflow) = Some (ratio / (ratio + overflow))%Q
  /\ Num.div overflow (ratio + overflow)
     = Some (overflow / (ratio + overflow))%Q.
Proof.
  intros Hr Ho Hg. apply gt0_true in Hg.
  split; apply div_pos_divisor; lra.
Qed.

Lemma simple_view_gate (env : UI.Env) (assigned activity balance : Z) :
  exists progress node,
    Simple.computeCategoryProgress (Simple.mkParams assigned activity balance)
    = Some progress
    /\ Simple.CategoryProgressBar env
         (Simple.mkParams assigned activity balance) = Some node
    /\ (node <> UI.null <->
        UI.useFeatureFlag env "progressBar" = true
        /\ 0 < Simple.baselineAmount progress).
Proof.
  destruct (simple_invariants assigned activity balance)
    as (r & Hr & [Hlo _] & Hov & _).
  exists r. unfold Simple.CategoryProgressBar. rewrite Hr. cbn [Num.bind].
  destruct (UI.useFeatureFlag env "progressBar"); cbn [negb orb].
  - destruct (Z.leb_spec (Simple.baselineAmount r) 0).
    + eexists. split; [reflexivity|]. split; [reflexivity|].
      split; [congruence | lia].
    + destruct (Num.gt0 (Simple.overflowRatio r)) eqn:G.
      * destruct (segment_shares_finite _ _ Hlo Hov G) as [-> ->].
        eexists. split; [reflexivity|]. split; [reflexivity|].
        split; [intros _; split; [reflexivity | lia] | discriminate].
      * eexists. split; [reflexivity|]. split; [reflexivity|].
        split; [intros _; split; [reflexivity | lia] | discriminate].
  - eexists. split; [reflexivity|]. split; [reflexivity|].
    split; [congruence | intros [? _]; discriminate].
Qed.

Lemma template_view_gate (env : UI.Env) (assigned activity balance : Z)
  (template : option Z) :
  exists progress node,
    TemplateAware.computeCategoryProgress
      (TemplateAware.mkParams assigned activity balance template)
    = Some progress
    /\ TemplateAware.CategoryProgressBar env
         (TemplateAware.mkParams assigned activity balance template)
       = Some node
    /\ (node <> UI.null <->
        UI.useFeatureFlag env "progressBar" = true
        /\ 0 < TemplateAware.baselineAmount progress).
Proof.
  destruct (template_invariants assigned activity balance template)
    as (r & Hr & [Hlo _] & Hov & _).
  exists r. unfold TemplateAware.CategoryProgressBar.
  rewrite Hr. cbn [Num.bind].
  destruct (UI.useFeatureFlag env "progressBar"); cbn [negb orb].
  - destruct (Z.leb_spec (TemplateAware.baselineAmount r) 0).
    + eexists. split; [reflexivity|]. split; [reflexivity|].
      split; [congruence | lia].
    + destruct (Num.gt0 (TemplateAware.overflowRatio r)) eqn:G.
      * destruct (segment_shares_finite _ _ Hlo Hov G) as [-> ->].
        eexists. split; [reflexivity|]. split; [reflexivity|].
        split; [intros _; split; [reflexivity | lia] | discriminate].
      * eexists. split; [reflexivity|]. split; [reflexivity|].
        split; [intros _; split; [reflexivity | lia] | discriminate].
  - eexists. split; [reflexivity|]. split; [reflexivity|].
    split; [congruence | intros [? _]; discriminate].
Qed.

(** ** Scenarios *)

(** The inputs of [CategoryProgressBar.test.tsx], which exercises the
    two-state draft, followed by one underfunded category. *)

Example test_under_budget :
  Simple.computeCategoryProgress (Simple.mkParams 10000 (-3000) 7000)
  = Some (Simple.mkResult 10000 (3000 / 10000) 0 7000 Simple.within_budget).
Proof. reflexivity. Qed.

Example test_on_budget :
  Simple.computeCategoryProgress (Simple.mkParams 10000 (-10000) 0)
  = Some (Simple.mkResult 10000 (10000 / 10000) 0 0 Simple.within_budget).
Proof. reflexivity. Qed.

Example test_over_budget :
  Simple.computeCategoryProgress (Simple.mkParams 10000 (-12000) (-2000))
  = Some (Simple.mkResult 10000 1 (2000 / 10000) (-2000) Simple.over_budget).
Proof. reflexivity. Qed.

Example test_spent_without_budget :
  Simple.computeCategoryProgress (Simple.mkParams 0 (-500) (-500))
  = Some (Simple.mkResult 500 1 0 (-500) Simple.over_budget).
Proof. reflexivity. Qed.

Example test_flag_disabled :
  Simple.CategoryProgressBar
    (UI.mkEnv (fun _ => false) (fun _ => None) (fun _ => EmptyString))
    (Simple.mkParams 10000 (-3000) 7000)
  = Some UI.null.
Proof. reflexivity. Qed.

Example test_flag_enabled :
  Simple.CategoryProgressBar
    (UI.mkEnv (fun _ => true) (fun _ => None) (fun _ => EmptyString))
    (Simple.mkParams 10000 (-3000) 7000)
  = Some
      (UI.element
         (UI.mkBar
            [UI.PercentOfBudgetSpent 30; UI.Budgeted EmptyString;
             UI.Spent EmptyString; UI.Balance EmptyString]
            UI.tableBackground
            [UI.view
               (UI.mkFill 0 (3000 / 10000 * 100) 3 UI.templateNumberFunded
                  None None);
             UI.nothing])).
Proof. reflexivity. Qed.

Example scenario_underfunded :
  TemplateAware.computeCategoryProgress
    (TemplateAware.mkParams 10000 (-5000) 5000 (Some 20000))
  = Some (TemplateAware.mkResult 20000
            (Qmin (5000 / 10000) 1 * Qmin (10000 / 20000) 1)
            (Qmin (10000 / 20000) 1) 0 5000 TemplateAware.underfunded).
Proof. reflexivity. Qed.

(** ** The claims *)

(** C1 (the code departs from the claim).  The claim: [remaining] equals the
    input [balance] in every branch, also where [assigned <= 0] and
    [|activity| = 0].  In that branch both drafts return the literal
    [remaining: 0]: on the input of the unit test "should handle negative
    assigned amount" ([assigned = -10000], [activity = 0],
    [balance = -10000]) the result has [remaining = 0], not [-10000]. *)
Theorem C1_remaining_dropped_in_quiescent_branch :
  (exists r,
     Simple.computeCategoryProgress (Simple.mkParams (-10000) 0 (-10000))
     = Some r
     /\ Simple.remaining r = 0 /\ Simple.remaining r <> -10000)
  /\ (exists r,
        TemplateAware.computeCategoryProgress
          (TemplateAware.mkParams (-10000) 0 (-10000) None) = Some r
        /\ TemplateAware.remaining r = 0
        /\ TemplateAware.remaining r <> -10000).
Proof.
  split; eexists; (split; [reflexivity|]); cbn; (split; [reflexivity|lia]).
Qed.

(** Outside that branch [remaining] is the input [balance], in both
    drafts. *)
Lemma remaining_is_balance_outside_quiescent
  (assigned activity balance : Z) (template : option Z) :
  0 < assigned \/ activity <> 0 ->
  (exists r,
     Simple.computeCategoryProgress (Simple.mkParams assigned activity balance)
     = Some r
     /\ Simple.remaining r = balance)
  /\ (exists r,
        TemplateAware.computeCategoryProgress
          (TemplateAware.mkParams assigned activity balance template)
        = Some r
        /\ TemplateAware.remaining r = balance).
Proof.
  intros Hout.
  by_branch assigned activity; [lia | ..]; split; eexists; split;
    first [ apply simple_no_budget; assumption
          | apply simple_over; assumption
          | apply simple_within; assumption
          | apply template_no_budget; assumption
          | apply template_over; assumption
          | apply template_within; assumption
          | reflexivity ].
Qed.

(** C2.  For every input the result of [computeCategoryProgress], in either
    draft, has its spent/progress ratio in [0,1] and a non-negative overflow
    ratio; a positive overflow ratio forces the ratio to be 1; the baseline
    amount is non-negative; and a zero baseline forces ratio and overflow to
    be 0. *)
Theorem C2_output_invariants (assigned activity balance : Z)
  (template : option Z) :
  (exists r,
     Simple.computeCategoryProgress (Simple.mkParams assigned activity balance)
     = Some r
     /\ (0 <= Simple.progressRatio r <= 1)%Q
     /\ (0 <= Simple.overflowRatio r)%Q
     /\ ((0 < Simple.overflowRatio r)%Q -> Simple.progressRatio r = 1%Q)
     /\ 0 <= Simple.baselineAmount r
     /\ (Simple.baselineAmount r = 0 ->
         Simple.progressRatio r = 0%Q /\ Simple.overflowRatio r = 0%Q))
  /\ (exists r,
        TemplateAware.computeCategoryProgress
          (TemplateAware.mkParams assigned activity balance template)
        = Some r
        /\ (0 <= TemplateAware.spentRatio r <= 1)%Q
        /\ (0 <= TemplateAware.overflowRatio r)%Q
        /\ ((0 < TemplateAware.overflowRatio r)%Q ->
            TemplateAware.spentRatio r = 1%Q)
        /\ 0 <= TemplateAware.baselineAmount r
        /\ (TemplateAware.baselineAmount r = 0 ->
            TemplateAware.spentRatio r = 0%Q
            /\ TemplateAware.overflowRatio r = 0%Q)).
Proof.
  split.
  - apply simple_invariants.
  - apply template_invariants.
Qed.

(** C3.  [computeCategoryProgress] is total in either draft: for every
    integer input, negative, zero or arbitrarily large, it returns a result
    whose numbers are finite; no division on a reachable path has a zero
    divisor. *)
Theorem C3_total (assigned activity balance : Z) (template : option Z) :
  (exists r,
     Simple.computeCategoryProgress (Simple.mkParams assigned activity balance)
     = Some r)
  /\ (exists r,
        TemplateAware.computeCategoryProgress
          (TemplateAware.mkParams assigned activity balance template)
        = Some r).
Proof.
  destruct (simple_invariants assigned activity balance) as (r & Hr & _).
  destruct (template_invariants assigned activity balance template)
    as (r' & Hr' & _).
  split; eauto.
Qed.

(** C4 (counterexample to the claim as stated).  The claim makes the bar
    render nothing unless the feature flag is true and the user preference
    "should bars be shown" is true and the baseline is positive.  The
    component never reads the preference: with the flag on and the
    [showProgressBars] preference set to false (so that the hosting row
    decides not to show bars), both drafts still return an element for
    [assigned = 10000], [activity = -3000], [balance = 7000]. *)
Lemma C4_preference_not_consulted :
  let env :=
    UI.mkEnv (fun _ => true) (fun _ => Some false) (fun _ => EmptyString) in
  UI.useGlobalPref env "showProgressBars" = Some false
  /\ ExpenseCategory.showProgressBars env = false
  /\ (exists bar,
        Simple.CategoryProgressBar env (Simple.mkParams 10000 (-3000) 7000)
        = Some (UI.element bar))
  /\ (exists bar,
        TemplateAware.CategoryProgressBar env
          (TemplateAware.mkParams 10000 (-3000) 7000 None)
        = Some (UI.element bar)).
Proof.
  cbv zeta. repeat split; try reflexivity; eexists; reflexivity.
Qed.

(** C4 (as amended).  In either draft [CategoryProgressBar] returns a node
    for every environment and input, and the node is an element (not null)
    exactly when the feature flag [progressBar] is true and the computed
    baseline amount is positive: with the flag false nothing renders
    whatever the input, and with the flag true and a positive baseline an
    element is rendered.  The user preference plays no part. *)
Theorem C4_render_gate (env : UI.Env) (assigned activity balance : Z)
  (template : option Z) :
  (exists progress node,
     Simple.computeCategoryProgress (Simple.mkParams assigned activity balance)
     = Some progress
     /\ Simple.CategoryProgressBar env
          (Simple.mkParams assigned activity balance) = Some node
     /\ (node <> UI.null <->
         UI.useFeatureFlag env "progressBar" = true
         /\ 0 < Simple.baselineAmount progress))
  /\ (exists progress node,
        TemplateAware.computeCategoryProgress
          (TemplateAware.mkParams assigned activity balance template)
        = Some progress
        /\ TemplateAware.CategoryProgressBar env
             (TemplateAware.mkParams assigned activity balance template)
           = Some node
        /\ (node <> UI.null <->
            UI.useFeatureFlag env "progressBar" = true
            /\ 0 < TemplateAware.baselineAmount progress)).
Proof.
  split.
  - apply simple_view_gate.
  - apply template_view_gate.
Qed.

(** C5.  When [assigned > 0] and [spent = |activity| > assigned], either
    draft returns baseline [assigned], ratio 1, overflow
    [(spent - assigned) / assigned] and state over-budget. *)
Theorem C5_overspent (assigned activity balance : Z) (template : option Z) :
  let spent := Z.abs activity in
  0 < assigned -> assigned < spent ->
  (exists r,
     Simple.computeCategoryProgress (Simple.mkParams assigned activity balance)
     = Some r
     /\ Simple.baselineAmount r = assigned
     /\ Simple.progressRatio r = 1%Q
     /\ Simple.overflowRatio r
        = (Num.num (spent - assigned) / Num.num assigned)%Q
     /\ Simple.state r = Simple.over_budget)
  /\ (exists r,
        TemplateAware.computeCategoryProgress
          (TemplateAware.mkParams assigned activity balance template)
        = Some r
        /\ TemplateAware.baselineAmount r = assigned
        /\ TemplateAware.spentRatio r = 1%Q
        /\ TemplateAware.overflowRatio r
           = (Num.num (spent - assigned) / Num.num assigned)%Q
        /\ TemplateAware.state r = TemplateAware.over_budget).
Proof.
  intros spent Ha Hs. split; eexists; split.
  - apply simple_over; assumption.
  - repeat split.
  - apply template_over; assumption.
  - repeat split.
Qed.

Lemma C5_overspent_witness :
  0 < 10000 /\ 10000 < Z.abs (-12000)
  /\ (exists r,
        Simple.computeCategoryProgress
          (Simple.mkParams 10000 (-12000) (-2000)) = Some r
        /\ Simple.overflowRatio r = (Num.num 2000 / Num.num 10000)%Q)
  /\ (exists r,
        TemplateAware.computeCategoryProgress
          (TemplateAware.mkParams 10000 (-12000) (-2000) (Some 20000))
        = Some r
        /\ TemplateAware.state r = TemplateAware.over_budget).
Proof.
  assert (Ha : 0 < 10000) by reflexivity.
  assert (Hs : 10000 < Z.abs (-12000)) by reflexivity.
  destruct (C5_overspent 10000 (-12000) (-2000) (Some 20000) Ha Hs)
    as [(r & Hr & _ & _ & Ho & _) (r' & Hr' & _ & _ & _ & Hst)].
  repeat split; try assumption; eexists; split; eassumption.
Defined.

(** C6.  When [assigned <= 0] and [spent = |activity| > 0], either draft
    returns baseline [spent], ratio 1, overflow 0 and state over-budget. *)
Theorem C6_spent_without_budget (assigned activity balance : Z)
  (template : option Z) :
  let spent := Z.abs activity in
  assigned <= 0 -> 0 < spent ->
  (exists r,
     Simple.computeCategoryProgress (Simple.mkParams assigned activity balance)
     = Some r
     /\ Simple.baselineAmount r = spent
     /\ Simple.progressRatio r = 1%Q
     /\ Simple.overflowRatio r = 0%Q
     /\ Simple.state r = Simple.over_budget)
  /\ (exists r,
        TemplateAware.computeCategoryProgress
          (TemplateAware.mkParams assigned activity balance template)
        = Some r
        /\ TemplateAware.baselineAmount r = spent
        /\ TemplateAware.spentRatio r = 1%Q
        /\ TemplateAware.overflowRatio r = 0%Q
        /\ TemplateAware.state r = TemplateAware.over_budget).
Proof.
  intros spent Ha Hs. split; eexists; split.
  - apply simple_no_budget; assumption.
  - repeat split.
  - apply template_no_budget; assumption.
  - repeat split.
Qed.

Lemma C6_spent_without_budget_witness :
  0 <= 0 /\ 0 < Z.abs (-500)
  /\ (exists r,
        Simple.computeCategoryProgress (Simple.mkParams 0 (-500) (-500))
        = Some r
        /\ Simple.baselineAmount r = 500)
  /\ (exists r,
        TemplateAware.computeCategoryProgress
          (TemplateAware.mkParams 0 (-500) (-500) None) = Some r
        /\ TemplateAware.baselineAmount r = 500).
Proof.
  assert (Ha : 0 <= 0) by discriminate.
  assert (Hs : 0 < Z.abs (-500)) by reflexivity.
  destruct (C6_spent_without_budget 0 (-500) (-500) None Ha Hs)
    as [(r & Hr & Hb & _) (r' & Hr' & Hb' & _)].
  repeat split; try assumption; eexists; split; eassumption.
Defined.

(** C7.  In the template-aware draft, when [assigned > 0] and
    [spent = |activity| <= assigned], the result has baseline [template]
    when [template > 0] and [assigned] otherwise, spent ratio
    [min(spent/assigned, 1) * budgetedRatio] with
    [budgetedRatio = template > 0 ? min(assigned/template, 1) : 1], and
    state underfunded when [template > 0] and [assigned < template], else
    funded. *)
Theorem C7_within_budget_with_template (assigned activity balance : Z)
  (template_ : option Z) :
  let template := TemplateAware.orZero template_ in
  let spent := Z.abs activity in
  0 < assigned -> spent <= assigned ->
  exists r,
    TemplateAware.computeCategoryProgress
      (TemplateAware.mkParams assigned activity balance template_)
    = Some r
    /\ TemplateAware.baselineAmount r
       = (if template >? 0 then template else assigned)
    /\ TemplateAware.spentRatio r
       = (Num.Math_min (Num.num spent / Num.num assigned) 1
          * TemplateAware.budgetedRatio r)%Q
    /\ TemplateAware.budgetedRatio r
       = (if template >? 0
          then Num.Math_min (Num.num assigned / Num.num template) 1
          else 1%Q)
    /\ TemplateAware.state r
       = (if (template >? 0) && (assigned <? template)
          then TemplateAware.underfunded else TemplateAware.funded).
Proof.
  intros template spent Ha Hs. eexists. split.
  - apply template_within; assumption.
  - repeat split.
Qed.

Lemma C7_within_budget_with_template_witness :
  0 < 10000 /\ Z.abs (-5000) <= 10000
  /\ exists r,
       TemplateAware.computeCategoryProgress
         (TemplateAware.mkParams 10000 (-5000) 5000 (Some 20000)) = Some r
       /\ TemplateAware.baselineAmount r = 20000
       /\ (TemplateAware.spentRatio r == 1 # 4)%Q
       /\ TemplateAware.state r = TemplateAware.underfunded.
Proof.
  assert (Ha : 0 < 10000) by reflexivity.
  assert (Hs : Z.abs (-5000) <= 10000) by discriminate.
  destruct (C7_within_budget_with_template 10000 (-5000) 5000 (Some 20000)
              Ha Hs) as (r & Hr & Hb & Hsr & Hbr & Hst).
  split; [exact Ha|]. split; [exact Hs|].
  exists r. split; [exact Hr|]. split; [exact Hb|].
  split; [|exact Hst]. rewrite Hsr, Hbr. reflexivity.
Defined.

(** C8 (counterexample to the claim as stated).  The claim gives
    [budgetedRatio = min(assigned/template, 1)] when [template > 0] and 1
    otherwise in every branch.  Over budget with [assigned = 10000] under a
    template of 20000 the result reports 1, not 1/2; with spending and no
    budget and no template it reports 0, not 1. *)
Lemma C8_budgeted_ratio_differs_off_the_funded_branch :
  (exists r,
     TemplateAware.computeCategoryProgress
       (TemplateAware.mkParams 10000 (-12000) (-2000) (Some 20000)) = Some r
     /\ TemplateAware.budgetedRatio r = 1%Q
     /\ ~ (TemplateAware.budgetedRatio r
           == Num.Math_min (Num.num 10000 / Num.num 20000) 1)%Q)
  /\ (exists r,
        TemplateAware.computeCategoryProgress
          (TemplateAware.mkParams 0 (-500) (-500) None) = Some r
        /\ TemplateAware.budgetedRatio r = 0%Q
        /\ ~ (TemplateAware.budgetedRatio r == 1)%Q).
Proof.
  split; eexists; (split; [reflexivity|]); (split; [reflexivity|]);
    cbn; discriminate.
Qed.

(** C8 (as amended).  In the template-aware draft, on the branch
    [assigned > 0] with [|activity| <= assigned] the returned
    [budgetedRatio] is [min(assigned/template, 1)] when [template > 0] and 1
    otherwise; on the over-budget branch ([assigned > 0],
    [|activity| > assigned]) it is 1; and when [assigned <= 0] under a
    template [template > 0] it is 0. *)
Theorem C8_budgeted_ratio_by_branch (assigned activity balance : Z)
  (template_ : option Z) :
  let template := TemplateAware.orZero template_ in
  let spent := Z.abs activity in
  exists r,
    TemplateAware.computeCategoryProgress
      (TemplateAware.mkParams assigned activity balance template_)
    = Some r
    /\ (0 < assigned -> spent <= assigned ->
        TemplateAware.budgetedRatio r
        = (if template >? 0
           then Num.Math_min (Num.num assigned / Num.num template) 1
           else 1%Q))
    /\ (0 < assigned -> assigned < spent ->
        TemplateAware.budgetedRatio r = 1%Q)
    /\ (assigned <= 0 -> 0 < template ->
        TemplateAware.budgetedRatio r = 0%Q).
Proof.
  intros template spent. subst spent.
  by_branch assigned activity; eexists; split.
  - apply template_quiescent; assumption.
  - repeat split; intros; first [lia | reflexivity].
  - apply template_no_budget; assumption.
  - repeat split; intros; first [lia | reflexivity].
  - apply template_over; assumption.
  - repeat split; intros; first [lia | reflexivity].
  - apply template_within; assumption.
  - repeat split; intros; first [lia | reflexivity].
Qed.

Lemma C8_budgeted_ratio_by_branch_witness :
  exists r,
    TemplateAware.computeCategoryProgress
      (TemplateAware.mkParams 10000 (-5000) 5000 (Some 20000)) = Some r
    /\ (TemplateAware.budgetedRatio r == 1 # 2)%Q.
Proof.
  destruct (C8_budgeted_ratio_by_branch 10000 (-5000) 5000 (Some 20000))
    as (r & Hr & Hw & _).
  exists r. split; [exact Hr|].
  rewrite Hw; [reflexivity | reflexivity | discriminate].
Defined.

(** C9.  In either draft the state is over-budget exactly when
    [|activity| > max(assigned, 0)]; otherwise it is within-budget in the
    simple draft and funded or underfunded in the template-aware one. *)
Theorem C9_over_budget_iff (assigned activity balance : Z)
  (template : option Z) :
  let spent := Z.abs activity in
  (exists r,
     Simple.computeCategoryProgress (Simple.mkParams assigned activity balance)
     = Some r
     /\ (Simple.state r = Simple.over_budget <-> Z.max assigned 0 < spent)
     /\ (~ Z.max assigned 0 < spent ->
         Simple.state r = Simple.within_budget))
  /\ (exists r,
        TemplateAware.computeCategoryProgress
          (TemplateAware.mkParams assigned activity balance template)
        = Some r
        /\ (TemplateAware.state r = TemplateAware.over_budget
            <-> Z.max assigned 0 < spent)
        /\ (~ Z.max assigned 0 < spent ->
            TemplateAware.state r = TemplateAware.funded
            \/ TemplateAware.state r = TemplateAware.underfunded)).
Proof.
  intros spent. subst spent.
  by_branch assigned activity; split; eexists; split;
    first [ apply simple_quiescent; assumption
          | apply simple_no_budget; assumption
          | apply simple_over; assumption
          | apply simple_within; assumption
          | apply template_quiescent; assumption
          | apply template_no_budget; assumption
          | apply template_over; assumption
          | apply template_within; assumption
          | idtac ];
    cbn [Simple.state TemplateAware.state];
    try destruct ((TemplateAware.orZero template >? 0)
                  && (assigned <? TemplateAware.orZero template))%bool;
    (split; [split; intros Hst | intros Hst];
     first [discriminate Hst | lia | reflexivity | auto]).
Qed.

(** C10.  In either draft, negating [activity] leaves the result unchanged:
    only [|activity|] enters the computation. *)
Theorem C10_activity_sign_irrelevant (assigned activity balance : Z)
  (template : option Z) :
  Simple.computeCategoryProgress
    (Simple.mkParams assigned (- activity) balance)
  = Simple.computeCategoryProgress
      (Simple.mkParams assigned activity balance)
  /\ TemplateAware.computeCategoryProgress
       (TemplateAware.mkParams assigned (- activity) balance template)
     = TemplateAware.computeCategoryProgress
         (TemplateAware.mkParams assigned activity balance template).
Proof.
  unfold Simple.computeCategoryProgress,
    TemplateAware.computeCategoryProgress, Num.Math_abs.
  rewrite Z.abs_opp. split; reflexivity.
Qed.

(** * Further properties of the view and the calculator *)

(** ** What an enabled bar renders *)

Section SimpleRender.

Variable env : UI.Env.
Variables assigned activity balance : Z.
Variable r : Simple.ProgressResult.

Hypothesis computed :
  Simple.computeCategoryProgress (Simple.mkParams assigned activity balance)
  = Some r.
Hypothesis flag_on : UI.useFeatureFlag env "progressBar" = true.
Hypothesis baseline_pos : 0 < Simple.baselineAmount r.

Let percent : Z :=
  Num.Math_round
    ((Simple.progressRatio r + Simple.overflowRatio r) * 100)%Q.
Let color : UI.Color := Simple.getProgressBarColor (Simple.state r).

Lemma simple_render_plain :
  Num.gt0 (Simple.overflowRatio r) = false ->
  exists rest,
    Simple.CategoryProgressBar env
      (Simple.mkParams assigned activity balance)
    = Some
        (UI.element
           (UI.mkBar (UI.PercentOfBudgetSpent percent :: rest)
              UI.tableBackground
              [UI.view
                 (UI.mkFill 0 (Simple.progressRatio r * 100) 3 color
                    None None);
               UI.nothing])).
Proof.
  intros G. unfold Simple.CategoryProgressBar.
  rewrite computed. cbn [Num.bind]. rewrite flag_on, G. cbn [negb orb].
  destruct (Z.leb_spec (Simple.baselineAmount r) 0); [lia|].
  destruct (Z.gtb_spec (Simple.baselineAmount r) 0); [|lia].
  cbn [UI.pushIf app Num.bind Num.ret]. eexists. reflexivity.
Qed.

Lemma simple_render_overflow :
  (0 <= Simple.progressRatio r)%Q -> (0 < Simple.overflowRatio r)%Q ->
  exists rest,
    let total := (Simple.progressRatio r + Simple.overflowRatio r)%Q in
    let share := (Simple.progressRatio r / total * 100)%Q in
    Simple.CategoryProgressBar env
      (Simple.mkParams assigned activity balance)
    = Some
        (UI.element
           (UI.mkBar (UI.PercentOfBudgetSpent percent :: rest)
              UI.tableBackground
              [UI.view (UI.mkFill 0 share 0 color None None);
               UI.view
                 (UI.mkFill share (Simple.overflowRatio r / total * 100) 0
                    color None (Some (72 # 100)))])).
Proof.
  intros Hr Ho. assert (G : Num.gt0 (Simple.overflowRatio r) = true)
    by (apply gt0_true; exact Ho).
  unfold Simple.CategoryProgressBar.
  rewrite computed. cbn [Num.bind]. rewrite flag_on, G. cbn [negb orb].
  destruct (Z.leb_spec (Simple.baselineAmount r) 0); [lia|].
  destruct (Z.gtb_spec (Simple.baselineAmount r) 0); [|lia].
  destruct (segment_shares_finite _ _ Hr (Qlt_le_weak _ _ Ho) G) as [-> ->].
  cbn [UI.pushIf app Num.bind Num.ret]. eexists. reflexivity.
Qed.

End SimpleRender.

Section TemplateRender.

Variable env : UI.Env.
Variables assigned activity balance : Z.
Variable template : option Z.
Variable r : TemplateAware.ProgressResult.

Hypothesis computed :
  TemplateAware.computeCategoryProgress
    (TemplateAware.mkParams assigned activity balance template)
  = Some r.
Hypothesis flag_on : UI.useFeatureFlag env "progressBar" = true.
Hypothesis baseline_pos : 0 < TemplateAware.baselineAmount r.

Let percent : Z :=
  Num.Math_round
    ((TemplateAware.spentRatio r + TemplateAware.overflowRatio r) * 100)%Q.
Let color : UI.Color :=
  TemplateAware.getProgressBarColor (TemplateAware.state r).
Let headline : UI.TooltipPart :=
  if TemplateAware.templateSet template
  then UI.PercentOfTemplateSpent percent
  else UI.PercentOfBudgetSpent percent.
Let budgeted : UI.Child :=
  match template with
  | None => UI.nothing
  | Some v =>
      if v =? 0 then UI.text "0"
      else if (v >? 0) && Num.gt0 (TemplateAware.budgetedRatio r) then
        UI.view
          (UI.mkFill 0 (TemplateAware.budgetedRatio r * 100) 3 color
             (Some (35 # 100)) None)
      else UI.nothing
  end.

Lemma template_render_plain :
  Num.gt0 (TemplateAware.overflowRatio r) = false ->
  exists rest,
    TemplateAware.CategoryProgressBar env
      (TemplateAware.mkParams assigned activity balance template)
    = Some
        (UI.element
           (UI.mkBar (headline :: rest) UI.tableBackground
              [budgeted;
               UI.view
                 (UI.mkFill 0 (TemplateAware.spentRatio r * 100) 3 color
                    None None);
               UI.nothing])).
Proof.
  intros G. unfold TemplateAware.CategoryProgressBar.
  rewrite computed. cbn [Num.bind]. rewrite flag_on, G. cbn [negb orb].
  destruct (Z.leb_spec (TemplateAware.baselineAmount r) 0); [lia|].
  destruct (Z.gtb_spec (TemplateAware.baselineAmount r) 0); [|lia].
  cbn [UI.pushIf app Num.bind Num.ret]. eexists. reflexivity.
Qed.

Lemma template_render_overflow :
  (0 <= TemplateAware.spentRatio r)%Q ->
  (0 < TemplateAware.overflowRatio r)%Q ->
  exists rest,
    let total :=
      (TemplateAware.spentRatio r + TemplateAware.overflowRatio r)%Q in
    let share := (TemplateAware.spentRatio r / total * 100)%Q in
    TemplateAware.CategoryProgressBar env
      (TemplateAware.mkParams assigned activity balance template)
    = Some
        (UI.element
           (UI.mkBar (headline :: rest) UI.tableBackground
              [budgeted;
               UI.view (UI.mkFill 0 share 0 color None None);
               UI.view
                 (UI.mkFill share
                    (TemplateAware.overflowRatio r / total * 100) 0 color
                    None (Some (72 # 100)))])).
Proof.
  intros Hr Ho.
  assert (G : Num.gt0 (TemplateAware.overflowRatio r) = true)
    by (apply gt0_true; exact Ho).
  unfold TemplateAware.CategoryProgressBar.
  rewrite computed. cbn [Num.bind]. rewrite flag_on, G. cbn [negb orb].
  destruct (Z.leb_spec (TemplateAware.baselineAmount r) 0); [lia|].
  destruct (Z.gtb_spec (TemplateAware.baselineAmount r) 0); [|lia].
  destruct (segment_shares_finite _ _ Hr (Qlt_le_weak _ _ Ho) G) as [-> ->].
  cbn [UI.pushIf app Num.bind Num.ret]. eexists. reflexivity.
Qed.

End TemplateRender.

(** ** The baseline in terms of the input *)

Lemma simple_baseline_pos_iff (assigned activity balance : Z)
  (r : Simple.ProgressResult) :
  Simple.computeCategoryProgress (Simple.mkParams assigned activity balance)
  = Some r ->
  (0 < Simple.baselineAmount r <-> 0 < assigned \/ activity <> 0).
Proof.
  intros Hr. by_branch assigned activity.
  - rewrite simple_quiescent in Hr by assumption.
    injection Hr as <-. cbn. lia.
  - rewrite simple_no_budget in Hr by assumption.
    injection Hr as <-. cbn. lia.
  - rewrite simple_over in Hr by assumption.
    injection Hr as <-. cbn. lia.
  - rewrite simple_within in Hr by assumption.
    injection Hr as <-. cbn. lia.
Qed.

Lemma template_baseline_pos_iff (assigned activity balance : Z)
  (template : option Z) (r : TemplateAware.ProgressResult) :
  TemplateAware.computeCategoryProgress
    (TemplateAware.mkParams assigned activity balance template)
  = Some r ->
  (0 < TemplateAware.baselineAmount r <-> 0 < assigned \/ activity <> 0).
Proof.
  intros Hr. by_branch assigned activity.
  - rewrite template_quiescent in Hr by assumption.
    injection Hr as <-. cbn. lia.
  - rewrite template_no_budget in Hr by assumption.
    injection Hr as <-. cbn. lia.
  - rewrite template_over in Hr by assumption.
    injection Hr as <-. cbn. lia.
  - rewrite template_within in Hr by assumption.
    injection Hr as <-. cbn.
    destruct (Z.gtb_spec (TemplateAware.orZero template) 0); lia.
Qed.

(** X1.  In either draft the bar is an element exactly when the feature
    flag is on and the category has a positive budget or some activity: with
    the flag on, only a category with no budget and no activity is left
    without a bar. *)
Theorem X1_bar_hidden_only_without_budget_and_activity (env : UI.Env)
  (assigned activity balance : Z) (template : option Z) :
  (exists node,
     Simple.CategoryProgressBar env
       (Simple.mkParams assigned activity balance) = Some node
     /\ (node <> UI.null <->
         UI.useFeatureFlag env "progressBar" = true
         /\ (0 < assigned \/ activity <> 0)))
  /\ (exists node,
        TemplateAware.CategoryProgressBar env
          (TemplateAware.mkParams assigned activity balance template)
        = Some node
        /\ (node <> UI.null <->
            UI.useFeatureFlag env "progressBar" = true
            /\ (0 < assigned \/ activity <> 0))).
Proof.
  split.
  - destruct (simple_view_gate env assigned activity balance)
      as (r & node & Hr & Hn & Hg).
    exists node. split; [exact Hn|].
    rewrite Hg, (simple_baseline_pos_iff _ _ _ _ Hr). reflexivity.
  - destruct (template_view_gate env assigned activity balance template)
      as (r & node & Hr & Hn & Hg).
    exists node. split; [exact Hn|].
    rewrite Hg, (template_baseline_pos_iff _ _ _ _ _ Hr). reflexivity.
Qed.

(** ** Overspending: two segments that share the track *)





(** ** Both ratios are taken of the larger of budget and template *)

Lemma num_pos (z : Z) : 0 < z -> (0 < Num.num z)%Q.
Proof.
  intros Hz. unfold Num.num. change 0%Q with (inject_Z 0).
  rewrite <- Zlt_Qlt. exact Hz.
Qed.

Lemma num_div_ge_1 (n d : Z) :
  0 < d -> d <= n -> (1 <= Num.num n / Num.num d)%Q.
Proof.
  intros Hd Hn. apply Qle_shift_div_l; [apply num_pos; exact Hd|].
  rewrite Qmult_1_l. unfold Num.num. rewrite <- Zle_Qle. exact Hn.
Qed.

Lemma within_ratios_closed_form (assigned spent template : Z) :
  0 < assigned -> 0 <= spent <= assigned ->
  let budgeted :=
    (if template >? 0
     then Num.Math_min (Num.num assigned / Num.num template) 1
     else 1)%Q in
  (Num.Math_min (Num.num spent / Num.num assigned) 1 * budgeted
   == Num.num spent / Num.num (Z.max assigned template))%Q
  /\ (budgeted == Num.num assigned / Num.num (Z.max assigned template))%Q.
Proof.
  intros Ha Hs budgeted. subst budgeted. unfold Num.Math_min.
  assert (Ha' := num_pos assigned Ha).
  rewrite (Q.min_l (Num.num spent / Num.num assigned) 1)
    by (apply num_div_le_1; lia).
  destruct (Z.gtb_spec template 0) as [Ht|Ht].
  - assert (Ht' := num_pos template Ht).
    destruct (Z.le_gt_cases template assigned) as [Hle|Hgt].
    + rewrite Z.max_l by lia.
      rewrite (Q.min_r (Num.num assigned / Num.num template) 1)
        by (apply num_div_ge_1; lia).
      split; field; lra.
    + rewrite Z.max_r by lia.
      rewrite (Q.min_l (Num.num assigned / Num.num template) 1)
        by (apply num_div_le_1; lia).
      split; [field; split; lra | reflexivity].
  - rewrite Z.max_l by lia. split; field; lra.
Qed.



(** ** The plain fill *)



(** ** Colours *)

Lemma simple_fills_colour (env : UI.Env) (assigned activity balance : Z)
  (r : Simple.ProgressResult) :
  Simple.computeCategoryProgress (Simple.mkParams assigned activity balance)
  = Some r ->
  UI.useFeatureFlag env "progressBar" = true ->
  0 < Simple.baselineAmount r ->
  (0 <= Simple.progressRatio r)%Q -> (0 <= Simple.overflowRatio r)%Q ->
  exists bar,
    Simple.CategoryProgressBar env
      (Simple.mkParams assigned activity balance) = Some (UI.element bar)
    /\ UI.trackColor bar = UI.tableBackground
    /\ forall f, In (UI.view f) (UI.children bar) ->
         UI.backgroundColor f = Simple.getProgressBarColor (Simple.state r).
Proof.
  intros Hr Hflag Hb Hp Ho.
  destruct (Num.gt0 (Simple.overflowRatio r)) eqn:G.
  - destruct (simple_render_overflow env assigned activity balance r Hr
                Hflag Hb Hp (proj1 (gt0_true _) G)) as (rest & Hrender).
    cbv zeta in Hrender. eexists. split; [exact Hrender|].
    split; [reflexivity|]. cbn [UI.children In].
    intros f [H|[H|[]]]; injection H as <-; reflexivity.
  - destruct (simple_render_plain env assigned activity balance r Hr
                Hflag Hb G) as (rest & Hrender).
    eexists. split; [exact Hrender|].
    split; [reflexivity|]. cbn [UI.children In].
    intros f [H|[H|[]]]; [injection H as <-; reflexivity | discriminate H].
Qed.

Lemma template_fills_colour (env : UI.Env) (assigned activity balance : Z)
  (template : option Z) (r : TemplateAware.ProgressResult) :
  TemplateAware.computeCategoryProgress
    (TemplateAware.mkParams assigned activity balance template)
  = Some r ->
  UI.useFeatureFlag env "progressBar" = true ->
  0 < TemplateAware.baselineAmount r ->
  (0 <= TemplateAware.spentRatio r)%Q ->
  (0 <= TemplateAware.overflowRatio r)%Q ->
  exists bar,
    TemplateAware.CategoryProgressBar env
      (TemplateAware.mkParams assigned activity balance template)
    = Some (UI.element bar)
    /\ UI.trackColor bar = UI.tableBackground
    /\ forall f, In (UI.view f) (UI.children bar) ->
         UI.backgroundColor f
         = TemplateAware.getProgressBarColor (TemplateAware.state r).
Proof.
  intros Hr Hflag Hb Hp Ho.
  assert (Hbud : forall f c,
             UI.view f
             = match template with
               | None => UI.nothing
               | Some v =>
                   if v =? 0 then UI.text "0"
                   else if (v >? 0)
                           && Num.gt0 (TemplateAware.budgetedRatio r)
                   then UI.view
                          (UI.mkFill 0 (TemplateAware.budgetedRatio r * 100)
                             3 c (Some (35 # 100)) None)
                   else UI.nothing
               end ->
             UI.backgroundColor f = c).
  { intros f c H. destruct template as [v|]; [|discriminate H].
    destruct (v =? 0); [discriminate H|].
    destruct ((v >? 0) && Num.gt0 (TemplateAware.budgetedRatio r))%bool;
      [injection H as ->; reflexivity | discriminate H]. }
  destruct (Num.gt0 (TemplateAware.overflowRatio r)) eqn:G.
  - destruct (template_render_overflow env assigned activity balance
                template r Hr Hflag Hb Hp (proj1 (gt0_true _) G))
      as (rest & Hrender).
    cbv zeta in Hrender. eexists. split; [exact Hrender|].
    split; [reflexivity|]. cbn [UI.children In].
    intros f [H|[H|[H|[]]]];
      [ apply Hbud; symmetry; exact H
      | injection H as <-; reflexivity
      | injection H as <-; reflexivity ].
  - destruct (template_render_plain env assigned activity balance
                template r Hr Hflag Hb G) as (rest & Hrender).
    eexists. split; [exact Hrender|].
    split; [reflexivity|]. cbn [UI.children In].
    intros f [H|[H|[H|[]]]];
      [ apply Hbud; symmetry; exact H
      | injection H as <-; reflexivity
      | discriminate H ].
Qed.

(** X5.  With the flag on, for a category with a budget or activity, the
    track has the table-background colour and every segment drawn on it has
    one and the same colour, decided by the input: the negative (red) tone
    exactly when [|activity| > max(assigned, 0)]; otherwise, in the simple
    draft, the funded (green) tone, and in the template-aware draft the
    underfunded (orange) tone when [template > 0] and [assigned < template]
    and the funded tone if not. *)
Theorem X5_segment_colour_by_input (env : UI.Env)
  (assigned activity balance : Z) (template_ : option Z) :
  let template := TemplateAware.orZero template_ in
  let spent := Z.abs activity in
  UI.useFeatureFlag env "progressBar" = true ->
  0 < assigned \/ activity <> 0 ->
  (exists bar,
     Simple.CategoryProgressBar env
       (Simple.mkParams assigned activity balance) = Some (UI.element bar)
     /\ UI.trackColor bar = UI.tableBackground
     /\ forall f, In (UI.view f) (UI.children bar) ->
          UI.backgroundColor f
          = if Z.max assigned 0 <? spent then UI.budgetNumberNegative
            else UI.templateNumberFunded)
  /\ (exists bar,
        TemplateAware.CategoryProgressBar env
          (TemplateAware.mkParams assigned activity balance template_)
        = Some (UI.element bar)
        /\ UI.trackColor bar = UI.tableBackground
        /\ forall f, In (UI.view f) (UI.children bar) ->
             UI.backgroundColor f
             = if Z.max assigned 0 <? spent then UI.budgetNumberNegative
               else if (template >? 0) && (assigned <? template)
                    then UI.templateNumberUnderFunded
                    else UI.templateNumberFunded).
Proof.
  intros template spent Hflag Hany.
  destruct (simple_invariants assigned activity balance)
    as (r & Hr & [Hp _] & Ho & _).
  destruct (template_invariants assigned activity balance template_)
    as (r' & Hr' & [Hp' _] & Ho' & _).
  assert (Hb := proj2 (simple_baseline_pos_iff _ _ _ _ Hr) Hany).
  assert (Hb' := proj2 (template_baseline_pos_iff _ _ _ _ _ Hr') Hany).
  destruct (simple_fills_colour env _ _ _ r Hr Hflag Hb Hp Ho)
    as (bar & Hbar & Htrack & Hcol).
  destruct (template_fills_colour env _ _ _ _ r' Hr' Hflag Hb' Hp' Ho')
    as (bar' & Hbar' & Htrack' & Hcol').
  assert (Hst :
            Simple.getProgressBarColor (Simple.state r)
            = (if Z.max assigned 0 <? spent then UI.budgetNumberNegative
               else UI.templateNumberFunded)
            /\ TemplateAware.getProgressBarColor (TemplateAware.state r')
               = (if Z.max assigned 0 <? spent then UI.budgetNumberNegative
                  else if (template >? 0) && (assigned <? template)
                       then UI.templateNumberUnderFunded
                       else UI.templateNumberFunded)).
  { subst spent. clear Hcol Hcol' Hbar Hbar'.
    by_branch assigned activity; [lia| | |].
    - rewrite simple_no_budget in Hr by assumption.
      rewrite template_no_budget in Hr' by assumption.
      injection Hr as <-. injection Hr' as <-.
      destruct (Z.ltb_spec (Z.max assigned 0) (Z.abs activity)); [|lia].
      split; reflexivity.
    - rewrite simple_over in Hr by assumption.
      rewrite template_over in Hr' by assumption.
      injection Hr as <-. injection Hr' as <-.
      destruct (Z.ltb_spec (Z.max assigned 0) (Z.abs activity)); [|lia].
      split; reflexivity.
    - rewrite simple_within in Hr by assumption.
      rewrite template_within in Hr' by assumption.
      injection Hr as <-. injection Hr' as <-.
      destruct (Z.ltb_spec (Z.max assigned 0) (Z.abs activity)); [lia|].
      split; [reflexivity|]. cbn [TemplateAware.state]. fold template.
      destruct ((template >? 0) && (assigned <? template))%bool;
        reflexivity. }
  destruct Hst as [Hst Hst'].
  split.
  - exists bar. split; [exact Hbar|]. split; [exact Htrack|].
    intros f Hf. rewrite (Hcol f Hf). exact Hst.
  - exists bar'. split; [exact Hbar'|]. split; [exact Htrack'|].
    intros f Hf. rewrite (Hcol' f Hf). exact Hst'.
Qed.

Lemma X5_segment_colour_by_input_witness :
  exists bar,
    TemplateAware.CategoryProgressBar
      (UI.mkEnv (fun _ => true) (fun _ => None) (fun _ => EmptyString))
      (TemplateAware.mkParams 10000 (-5000) 5000 (Some 20000))
    = Some (UI.element bar)
    /\ forall f, In (UI.view f) (UI.children bar) ->
         UI.backgroundColor f = UI.templateNumberUnderFunded.
Proof.
  assert (Hf : UI.useFeatureFlag
                 (UI.mkEnv (fun _ => true) (fun _ => None)
                    (fun _ => EmptyString)) "progressBar" = true)
    by reflexivity.
  assert (H1 : 0 < 10000 \/ -5000 <> 0) by (left; reflexivity).
  destruct (X5_segment_colour_by_input _ 10000 (-5000) 5000 (Some 20000)
              Hf H1) as [_ (bar & Hbar & _ & Hcol)].
  exists bar. split; [exact Hbar|]. exact Hcol.
Defined.

(** ** The percentage in the tooltip *)



Lemma total_fill_over (assigned spent : Z) :
  0 < assigned ->
  (1 + Num.num (spent - assigned) / Num.num assigned
   == Num.num spent / Num.num assigned)%Q.
Proof.
  intros Ha. assert (Ha' := num_pos assigned Ha). unfold Num.num in *.
  unfold Z.sub. rewrite inject_Z_plus, inject_Z_opp. field. lra.
Qed.



(** ** The budgeted segment of the template-aware draft *)

Lemma template_first_child (env : UI.Env) (assigned activity balance : Z)
  (template : option Z) (r : TemplateAware.ProgressResult) :
  TemplateAware.computeCategoryProgress
    (TemplateAware.mkParams assigned activity balance template)
  = Some r ->
  UI.useFeatureFlag env "progressBar" = true ->
  0 < TemplateAware.baselineAmount r ->
  (0 <= TemplateAware.spentRatio r)%Q ->
  (0 <= TemplateAware.overflowRatio r)%Q ->
  exists tip rest,
    TemplateAware.CategoryProgressBar env
      (TemplateAware.mkParams assigned activity balance template)
    = Some
        (UI.element
           (UI.mkBar tip UI.tableBackground
              (match template with
               | None => UI.nothing
               | Some v =>
                   if v =? 0 then UI.text "0"
                   else if (v >? 0)
                           && Num.gt0 (TemplateAware.budgetedRatio r)
                   then UI.view
                          (UI.mkFill 0 (TemplateAware.budgetedRatio r * 100)
                             3
                             (TemplateAware.getProgressBarColor
                                (TemplateAware.state r))
                             (Some (35 # 100)) None)
                   else UI.nothing
               end :: rest))).
Proof.
  intros Hr Hflag Hb Hp Ho.
  destruct (Num.gt0 (TemplateAware.overflowRatio r)) eqn:G.
  - destruct (template_render_overflow env assigned activity balance
                template r Hr Hflag Hb Hp (proj1 (gt0_true _) G))
      as (rest & Hrender).
    cbv zeta in Hrender. do 2 eexists. exact Hrender.
  - destruct (template_render_plain env assigned activity balance
                template r Hr Hflag Hb G) as (rest & Hrender).
    do 2 eexists. exact Hrender.
Qed.

Lemma gt0_false (x : Q) : (x <= 0)%Q -> Num.gt0 x = false.
Proof.
  intros Hx. destruct (Num.gt0 x) eqn:G; [|reflexivity].
  apply gt0_true in G. lra.
Qed.

(** X7.  In the template-aware draft, with the flag on and a budget or
    activity, the first child of the track is the translucent budgeted
    segment exactly when [template > 0] and [assigned > 0]: it starts at 0
    with opacity 0.35, and its width is the whole track when the budget is
    overspent or at least the template, and [assigned / template] of the
    track when the budget is below the template and not overspent.  When no
    template is given, or it is negative, or nothing is assigned, nothing is
    drawn in its place. *)
Theorem X7_budgeted_segment (env : UI.Env)
  (assigned activity balance : Z) (template_ : option Z) :
  let template := TemplateAware.orZero template_ in
  let spent := Z.abs activity in
  UI.useFeatureFlag env "progressBar" = true ->
  0 < assigned \/ activity <> 0 ->
  exists tip first rest,
    TemplateAware.CategoryProgressBar env
      (TemplateAware.mkParams assigned activity balance template_)
    = Some (UI.element (UI.mkBar tip UI.tableBackground (first :: rest)))
    /\ (0 < template -> 0 < assigned ->
        exists f,
          first = UI.view f
          /\ UI.left f = 0%Q
          /\ UI.opacity f = Some (35 # 100)
          /\ (UI.width f
              == if (assigned <? spent) || (template <=? assigned)
                 then 100
                 else Num.num assigned / Num.num template * 100)%Q)
    /\ (template_ = None \/ template < 0 \/ (template <> 0 /\ assigned <= 0)
        -> first = UI.nothing).
Proof.
  intros template spent Hflag Hany.
  destruct (template_invariants assigned activity balance template_)
    as (r & Hr & [Hp _] & Ho & _).
  assert (Hb := proj2 (template_baseline_pos_iff _ _ _ _ _ Hr) Hany).
  destruct (template_first_child env _ _ _ _ r Hr Hflag Hb Hp Ho)
    as (tip & rest & Hrender).
  do 3 eexists. split; [exact Hrender|].
  clear Hrender Hb Hp Ho. split.
  - (* a template and a budget *)
    intros Ht Ha. destruct template_ as [v|]; [|cbn in Ht; lia].
    cbn in template, Ht. subst template.
    destruct (Z.eqb_spec v 0); [lia|].
    destruct (Z.gtb_spec v 0); [|lia]. cbn [andb].
    destruct (Z_le_gt_dec spent assigned) as [Hs|Hs].
    + rewrite template_within in Hr by assumption. injection Hr as <-.
      cbn [TemplateAware.budgetedRatio TemplateAware.orZero].
      destruct (Z.gtb_spec v 0); [|lia].
      assert (Hpos : (0 < Num.num assigned / Num.num v)%Q)
        by (apply num_div_pos; lia).
      destruct (Z.ltb_spec assigned spent); [lia|]. cbn [orb].
      unfold Num.Math_min.
      destruct (Z.leb_spec v assigned).
      * assert (Hq := num_div_ge_1 assigned v ltac:(lia) ltac:(lia)).
        rewrite (proj2 (gt0_true _))
          by (rewrite Q.min_r by exact Hq; reflexivity).
        eexists. split; [reflexivity|]. cbn [UI.left UI.opacity UI.width].
        split; [reflexivity|]. split; [reflexivity|].
        rewrite Q.min_r by exact Hq. reflexivity.
      * assert (Hq := num_div_le_1 assigned v ltac:(lia) ltac:(lia)).
        rewrite (proj2 (gt0_true _))
          by (rewrite Q.min_l by exact Hq; exact Hpos).
        eexists. split; [reflexivity|]. cbn [UI.left UI.opacity UI.width].
        split; [reflexivity|]. split; [reflexivity|].
        rewrite Q.min_l by exact Hq. reflexivity.
    + rewrite template_over in Hr by lia. injection Hr as <-.
      cbn [TemplateAware.budgetedRatio].
      destruct (Z.ltb_spec assigned spent); [|lia]. cbn [orb].
      eexists. split; [reflexivity|]. cbn [UI.left UI.opacity UI.width].
      split; [reflexivity|]. split; reflexivity.
  - (* nothing to show *)
    intros [Hn|[Hn|[Hn Ha]]].
    + subst template_. reflexivity.
    + destruct template_ as [v|]; [|reflexivity].
      cbn in template, Hn. subst template.
      destruct (Z.eqb_spec v 0); [lia|].
      destruct (Z.gtb_spec v 0); [lia|]. reflexivity.
    + destruct template_ as [v|]; [|reflexivity].
      cbn in template, Hn. subst template.
      destruct (Z.eqb_spec v 0); [lia|].
      assert (Hs : 0 < spent) by (subst spent; lia).
      rewrite template_no_budget in Hr by assumption. injection Hr as <-.
      cbn [TemplateAware.budgetedRatio].
      rewrite (gt0_false 0) by discriminate.
      rewrite andb_false_r. reflexivity.
Qed.

Lemma X7_budgeted_segment_witness :
  exists tip f rest,
    TemplateAware.CategoryProgressBar
      (UI.mkEnv (fun _ => true) (fun _ => None) (fun _ => EmptyString))
      (TemplateAware.mkParams 10000 (-5000) 5000 (Some 20000))
    = Some
        (UI.element (UI.mkBar tip UI.tableBackground (UI.view f :: rest)))
    /\ (UI.width f == 50)%Q.
Proof.
  assert (Hf : UI.useFeatureFlag
                 (UI.mkEnv (fun _ => true) (fun _ => None)
                    (fun _ => EmptyString)) "progressBar" = true)
    by reflexivity.
  assert (H1 : 0 < 10000 \/ -5000 <> 0) by (left; reflexivity).
  destruct (X7_budgeted_segment _ 10000 (-5000) 5000 (Some 20000) Hf H1)
    as (tip & first & rest & Hr & Hv & _).
  destruct Hv as (f & -> & _ & _ & Hw); [reflexivity | reflexivity |].
  exists tip, f, rest. split; [exact Hr|]. rewrite Hw. reflexivity.
Defined.

(** X8.  In the template-aware draft a template of exactly 0 is rendered:
    with the flag on and a budget or activity, the first child of the track
    is the text "0" (the value of [template && ...] when [template] is 0),
    whatever the other inputs. *)
Theorem X8_zero_template_renders_text (env : UI.Env)
  (assigned activity balance : Z) :
  UI.useFeatureFlag env "progressBar" = true ->
  0 < assigned \/ activity <> 0 ->
  exists tip rest,
    TemplateAware.CategoryProgressBar env
      (TemplateAware.mkParams assigned activity balance (Some 0))
    = Some
        (UI.element
           (UI.mkBar tip UI.tableBackground (UI.text "0" :: rest))).
Proof.
  intros Hflag Hany.
  destruct (template_invariants assigned activity balance (Some 0))
    as (r & Hr & [Hp _] & Ho & _).
  assert (Hb := proj2 (template_baseline_pos_iff _ _ _ _ _ Hr) Hany).
  destruct (template_first_child env _ _ _ _ r Hr Hflag Hb Hp Ho)
    as (tip & rest & Hrender).
  exists tip, rest. exact Hrender.
Qed.

Lemma X8_zero_template_renders_text_witness :
  exists tip rest,
    TemplateAware.CategoryProgressBar
      (UI.mkEnv (fun _ => true) (fun _ => None) (fun _ => EmptyString))
      (TemplateAware.mkParams 10000 (-3000) 7000 (Some 0))
    = Some
        (UI.element
           (UI.mkBar tip UI.tableBackground (UI.text "0" :: rest))).
Proof.
  assert (Hf : UI.useFeatureFlag
                 (UI.mkEnv (fun _ => true) (fun _ => None)
                    (fun _ => EmptyString)) "progressBar" = true)
    by reflexivity.
  assert (H1 : 0 < 10000 \/ -3000 <> 0) by (left; reflexivity).
  exact (X8_zero_template_renders_text _ 10000 (-3000) 7000 Hf H1).
Defined.

(** ** How the reported fill grows with spending *)

Lemma num_le (x y : Z) : x <= y -> (Num.num x <= Num.num y)%Q.
Proof. intros H. unfold Num.num. rewrite <- Zle_Qle. exact H. Qed.

Lemma num_div_mono (n1 n2 d : Z) :
  0 < d -> n1 <= n2 -> (Num.num n1 / Num.num d <= Num.num n2 / Num.num d)%Q.
Proof.
  intros Hd Hn. assert (Hd' := num_pos d Hd). assert (Hn' := num_le _ _ Hn).
  apply Qle_shift_div_l; [exact Hd'|].
  setoid_replace (Num.num n1 / Num.num d * Num.num d)%Q with (Num.num n1)
    by (field; lra).
  exact Hn'.
Qed.

Lemma num_div_antimono (n d1 d2 : Z) :
  0 <= n -> 0 < d1 -> d1 <= d2 ->
  (Num.num n / Num.num d2 <= Num.num n / Num.num d1)%Q.
Proof.
  intros Hn Hd1 Hd2.
  assert (Hd1' := num_pos d1 Hd1). assert (Hd' := num_le _ _ Hd2).
  assert (Hq := num_div_nonneg n d1 Hd1 Hn).
  apply Qle_shift_div_r; [lra|].
  assert (E : (Num.num n / Num.num d1 * Num.num d1 == Num.num n)%Q)
    by (field; lra).
  nra.
Qed.

Lemma simple_total (assigned activity balance : Z) :
  let spent := Z.abs activity in
  exists r,
    Simple.computeCategoryProgress (Simple.mkParams assigned activity balance)
    = Some r
    /\ (Simple.progressRatio r + Simple.overflowRatio r
        == if 0 <? assigned then Num.num spent / Num.num assigned
           else if 0 <? spent then 1 else 0)%Q.
Proof.
  intros spent. subst spent.
  by_branch assigned activity; eexists; split.
  - apply simple_quiescent; assumption.
  - cbn. destruct (Z.ltb_spec 0 assigned); [lia|].
    destruct (Z.ltb_spec 0 (Z.abs activity)); [lia|]. reflexivity.
  - apply simple_no_budget; assumption.
  - cbn. destruct (Z.ltb_spec 0 assigned); [lia|].
    destruct (Z.ltb_spec 0 (Z.abs activity)); [|lia]. reflexivity.
  - apply simple_over; assumption.
  - cbn [Simple.progressRatio Simple.overflowRatio].
    destruct (Z.ltb_spec 0 assigned); [|lia].
    apply total_fill_over; assumption.
  - apply simple_within; assumption.
  - cbn [Simple.progressRatio Simple.overflowRatio].
    destruct (Z.ltb_spec 0 assigned); [|lia]. ring.
Qed.

Lemma template_total (assigned activity balance : Z)
  (template_ : option Z) :
  let template := TemplateAware.orZero template_ in
  let spent := Z.abs activity in
  exists r,
    TemplateAware.computeCategoryProgress
      (TemplateAware.mkParams assigned activity balance template_)
    = Some r
    /\ (TemplateAware.spentRatio r + TemplateAware.overflowRatio r
        == if 0 <? assigned
           then if assigned <? spent
                then Num.num spent / Num.num assigned
                else Num.num spent / Num.num (Z.max assigned template)
           else if 0 <? spent then 1 else 0)%Q.
Proof.
  intros template spent. subst spent.
  by_branch assigned activity; eexists; split.
  - apply template_quiescent; assumption.
  - cbn. destruct (Z.ltb_spec 0 assigned); [lia|].
    destruct (Z.ltb_spec 0 (Z.abs activity)); [lia|]. reflexivity.
  - apply template_no_budget; assumption.
  - cbn. destruct (Z.ltb_spec 0 assigned); [lia|].
    destruct (Z.ltb_spec 0 (Z.abs activity)); [|lia]. reflexivity.
  - apply template_over; assumption.
  - cbn [TemplateAware.spentRatio TemplateAware.overflowRatio].
    destruct (Z.ltb_spec 0 assigned); [|lia].
    destruct (Z.ltb_spec assigned (Z.abs activity)); [|lia].
    apply total_fill_over; assumption.
  - apply template_within; assumption.
  - cbn [TemplateAware.spentRatio TemplateAware.overflowRatio].
    destruct (Z.ltb_spec 0 assigned); [|lia].
    destruct (Z.ltb_spec assigned (Z.abs activity)); [lia|].
    destruct (within_ratios_closed_form assigned (Z.abs activity) template
                ltac:(assumption) ltac:(lia)) as [Hsp _].
    fold template. rewrite Hsp. ring.
Qed.

(** X9.  For a fixed budget (and template), spending more never lowers the
    reported fill [ratio + overflow], in either draft: if
    [|activity1| <= |activity2|] then the sum for the first input is at most
    the sum for the second.  The balance plays no part. *)
Theorem X9_reported_fill_monotone_in_spending
  (assigned activity1 activity2 balance1 balance2 : Z)
  (template : option Z) :
  Z.abs activity1 <= Z.abs activity2 ->
  (exists r1 r2,
     Simple.computeCategoryProgress
       (Simple.mkParams assigned activity1 balance1) = Some r1
     /\ Simple.computeCategoryProgress
          (Simple.mkParams assigned activity2 balance2) = Some r2
     /\ (Simple.progressRatio r1 + Simple.overflowRatio r1
         <= Simple.progressRatio r2 + Simple.overflowRatio r2)%Q)
  /\ (exists r1 r2,
        TemplateAware.computeCategoryProgress
          (TemplateAware.mkParams assigned activity1 balance1 template)
        = Some r1
        /\ TemplateAware.computeCategoryProgress
             (TemplateAware.mkParams assigned activity2 balance2 template)
           = Some r2
        /\ (TemplateAware.spentRatio r1 + TemplateAware.overflowRatio r1
            <= TemplateAware.spentRatio r2
               + TemplateAware.overflowRatio r2)%Q).
Proof.
  intros Hle.
  assert (H1 := Z.abs_nonneg activity1).
  split.
  - destruct (simple_total assigned activity1 balance1) as (r1 & Hr1 & E1).
    destruct (simple_total assigned activity2 balance2) as (r2 & Hr2 & E2).
    exists r1, r2. split; [exact Hr1|]. split; [exact Hr2|].
    rewrite E1, E2.
    destruct (Z.ltb_spec 0 assigned).
    + apply num_div_mono; assumption.
    + destruct (Z.ltb_spec 0 (Z.abs activity1));
        destruct (Z.ltb_spec 0 (Z.abs activity2));
        try lia; discriminate.
  - destruct (template_total assigned activity1 balance1 template)
      as (r1 & Hr1 & E1).
    destruct (template_total assigned activity2 balance2 template)
      as (r2 & Hr2 & E2).
    exists r1, r2. split; [exact Hr1|]. split; [exact Hr2|].
    rewrite E1, E2.
    destruct (Z.ltb_spec 0 assigned).
    + destruct (Z.ltb_spec assigned (Z.abs activity1));
        destruct (Z.ltb_spec assigned (Z.abs activity2)); try lia.
      * apply num_div_mono; assumption.
      * apply Qle_trans
          with (Num.num (Z.abs activity1) / Num.num assigned)%Q.
        -- apply num_div_antimono; lia.
        -- apply num_div_mono; assumption.
      * apply num_div_mono; lia.
    + destruct (Z.ltb_spec 0 (Z.abs activity1));
        destruct (Z.ltb_spec 0 (Z.abs activity2));
        try lia; discriminate.
Qed.

Lemma X9_reported_fill_monotone_in_spending_witness :
  exists r1 r2,
    TemplateAware.computeCategoryProgress
      (TemplateAware.mkParams 10000 (-10000) 0 (Some 20000)) = Some r1
    /\ TemplateAware.computeCategoryProgress
         (TemplateAware.mkParams 10000 (-10001) (-1) (Some 20000))
       = Some r2
    /\ (TemplateAware.spentRatio r1 + TemplateAware.overflowRatio r1
        <= TemplateAware.spentRatio r2 + TemplateAware.overflowRatio r2)%Q.
Proof.
  assert (H : Z.abs (-10000) <= Z.abs (-10001)) by discriminate.
  exact (proj2 (X9_reported_fill_monotone_in_spending
                  10000 (-10000) (-10001) 0 (-1) (Some 20000) H)).
Defined.

(** ** The hosting row and the bar *)

(** X10.  The row and the bar agree unless the user has switched the bars
    off: whenever the row decides to show bars ([showProgressBars]), a
    category with a budget or activity gets an element from either draft;
    and whenever a draft returns an element, either the row shows bars or
    the [showProgressBars] preference is explicitly false. *)
Theorem X10_row_and_bar_agree_unless_bars_switched_off (env : UI.Env)
  (assigned activity balance : Z) (template : option Z) :
  (ExpenseCategory.showProgressBars env = true ->
   0 < assigned \/ activity <> 0 ->
   (exists bar,
      Simple.CategoryProgressBar env
        (Simple.mkParams assigned activity balance) = Some (UI.element bar))
   /\ (exists bar,
         TemplateAware.CategoryProgressBar env
           (TemplateAware.mkParams assigned activity balance template)
         = Some (UI.element bar)))
  /\ (forall bar,
        Simple.CategoryProgressBar env
          (Simple.mkParams assigned activity balance) = Some (UI.element bar)
        \/ TemplateAware.CategoryProgressBar env
             (TemplateAware.mkParams assigned activity balance template)
           = Some (UI.element bar) ->
        ExpenseCategory.showProgressBars env = true
        \/ UI.useGlobalPref env "showProgressBars" = Some false).
Proof.
  destruct (simple_view_gate env assigned activity balance)
    as (r & n & Hr & Hn & Hg).
  destruct (template_view_gate env assigned activity balance template)
    as (r' & n' & Hr' & Hn' & Hg').
  rewrite (simple_baseline_pos_iff _ _ _ _ Hr) in Hg.
  rewrite (template_baseline_pos_iff _ _ _ _ _ Hr') in Hg'.
  unfold ExpenseCategory.showProgressBars. split.
  - intros Hshow Hany. apply andb_true_iff in Hshow as [Hflag _].
    split.
    + destruct n as [|bar]; [|exists bar; exact Hn].
      exfalso. apply (proj2 Hg); [split; assumption | reflexivity].
    + destruct n' as [|bar]; [|exists bar; exact Hn'].
      exfalso. apply (proj2 Hg'); [split; assumption | reflexivity].
  - intros bar Hbar.
    assert (Hflag : UI.useFeatureFlag env "progressBar" = true).
    { destruct Hbar as [Hbar|Hbar].
      - rewrite Hbar in Hn. injection Hn as <-.
        apply (proj1 Hg). discriminate.
      - rewrite Hbar in Hn'. injection Hn' as <-.
        apply (proj1 Hg'). discriminate. }
    rewrite Hflag.
    destruct (UI.useGlobalPref env "showProgressBars") as [[|]|];
      [left | right | left]; reflexivity.
Qed.

(** ** Changing the unit of the amounts *)

Lemma num_div_scale (k n d : Z) :
  0 < k -> 0 < d ->
  (Num.num (k * n) / Num.num (k * d) == Num.num n / Num.num d)%Q.
Proof.
  intros Hk Hd. assert (Hk' := num_pos k Hk). assert (Hd' := num_pos d Hd).
  unfold Num.num in *. rewrite !inject_Z_mult. field. split; lra.
Qed.

Lemma scaled_guards (k x y : Z) :
  0 < k ->
  (k * x >? 0) = (x >? 0) /\ (k * x <? k * y) = (x <? y).
Proof.
  intros Hk. split.
  - destruct (Z.gtb_spec (k * x) 0), (Z.gtb_spec x 0); try reflexivity; nia.
  - destruct (Z.ltb_spec (k * x) (k * y)), (Z.ltb_spec x y);
      try reflexivity; nia.
Qed.

(** X11.  The ratios and the state do not depend on the unit of the amounts:
    multiplying [assigned], [activity] (and [template]) by the same positive
    factor leaves every ratio and the state unchanged and multiplies the
    baseline amount by that factor, in either draft. *)
Theorem X11_ratios_independent_of_unit
  (k assigned activity balance balance' : Z) (template : option Z) :
  0 < k ->
  (exists r r',
     Simple.computeCategoryProgress (Simple.mkParams assigned activity balance)
     = Some r
     /\ Simple.computeCategoryProgress
          (Simple.mkParams (k * assigned) (k * activity) balance') = Some r'
     /\ (Simple.progressRatio r' == Simple.progressRatio r)%Q
     /\ (Simple.overflowRatio r' == Simple.overflowRatio r)%Q
     /\ Simple.state r' = Simple.state r
     /\ Simple.baselineAmount r' = k * Simple.baselineAmount r)
  /\ (exists r r',
        TemplateAware.computeCategoryProgress
          (TemplateAware.mkParams assigned activity balance template)
        = Some r
        /\ TemplateAware.computeCategoryProgress
             (TemplateAware.mkParams (k * assigned) (k * activity) balance'
                (option_map (Z.mul k) template)) = Some r'
        /\ (TemplateAware.spentRatio r' == TemplateAware.spentRatio r)%Q
        /\ (TemplateAware.budgetedRatio r'
            == TemplateAware.budgetedRatio r)%Q
        /\ (TemplateAware.overflowRatio r'
            == TemplateAware.overflowRatio r)%Q
        /\ TemplateAware.state r' = TemplateAware.state r
        /\ TemplateAware.baselineAmount r'
           = k * TemplateAware.baselineAmount r).
Proof.
  intros Hk.
  assert (Habs : Z.abs (k * activity) = k * Z.abs activity)
    by (rewrite Z.abs_mul, (Z.abs_eq k) by lia; reflexivity).
  assert (Ht : TemplateAware.orZero (option_map (Z.mul k) template)
               = k * TemplateAware.orZero template)
    by (destruct template; cbn; lia).
  by_branch assigned activity; split.
  - do 2 eexists. split; [apply simple_quiescent; assumption|].
    split; [apply simple_quiescent; nia|].
    cbn. repeat split; try reflexivity; lia.
  - do 2 eexists. split; [apply template_quiescent; assumption|].
    split; [apply template_quiescent; nia|].
    cbn. repeat split; try reflexivity; lia.
  - do 2 eexists. split; [apply simple_no_budget; assumption|].
    split; [apply simple_no_budget; nia|].
    cbn [Simple.progressRatio Simple.overflowRatio Simple.state
         Simple.baselineAmount].
    repeat split; try reflexivity; exact Habs.
  - do 2 eexists. split; [apply template_no_budget; assumption|].
    split; [apply template_no_budget; nia|].
    cbn [TemplateAware.spentRatio TemplateAware.budgetedRatio
         TemplateAware.overflowRatio TemplateAware.state
         TemplateAware.baselineAmount].
    repeat split; try reflexivity; exact Habs.
  - do 2 eexists. split; [apply simple_over; assumption|].
    split; [apply simple_over; nia|].
    cbn [Simple.progressRatio Simple.overflowRatio Simple.state
         Simple.baselineAmount].
    split; [reflexivity|]. split; [|split; reflexivity].
    rewrite Habs, <- Z.mul_sub_distr_l. apply num_div_scale; assumption.
  - do 2 eexists. split; [apply template_over; assumption|].
    split; [apply template_over; nia|].
    cbn [TemplateAware.spentRatio TemplateAware.budgetedRatio
         TemplateAware.overflowRatio TemplateAware.state
         TemplateAware.baselineAmount].
    split; [reflexivity|]. split; [reflexivity|].
    split; [|split; reflexivity].
    rewrite Habs, <- Z.mul_sub_distr_l. apply num_div_scale; assumption.
  - do 2 eexists. split; [apply simple_within; assumption|].
    split; [apply simple_within; nia|].
    cbn [Simple.progressRatio Simple.overflowRatio Simple.state
         Simple.baselineAmount].
    split; [|repeat split; reflexivity].
    rewrite Habs. apply num_div_scale; assumption.
  - do 2 eexists. split; [apply template_within; assumption|].
    split; [apply template_within; nia|].
    cbn [TemplateAware.spentRatio TemplateAware.budgetedRatio
         TemplateAware.overflowRatio TemplateAware.state
         TemplateAware.baselineAmount].
    rewrite Ht, Habs.
    destruct (scaled_guards k (TemplateAware.orZero template) 0 Hk)
      as [-> _].
    destruct (scaled_guards k assigned (TemplateAware.orZero template) Hk)
      as [_ ->].
    assert (Hsp := num_div_scale k (Z.abs activity) assigned Hk
                     ltac:(assumption)).
    destruct (Z.gtb_spec (TemplateAware.orZero template) 0) as [Hpos|Hneg].
    + assert (Hbu := num_div_scale k assigned
                       (TemplateAware.orZero template) Hk Hpos).
      unfold Num.Math_min. rewrite Hsp, Hbu.
      repeat split; reflexivity.
    + unfold Num.Math_min. rewrite Hsp.
      repeat split; reflexivity.
Qed.

Lemma X11_ratios_independent_of_unit_witness :
  exists r r',
    Simple.computeCategoryProgress (Simple.mkParams 100 (-30) 70) = Some r
    /\ Simple.computeCategoryProgress
         (Simple.mkParams 10000 (-3000) 7000) = Some r'
    /\ (Simple.progressRatio r' == Simple.progressRatio r)%Q
    /\ Simple.baselineAmount r' = 100 * Simple.baselineAmount r.
Proof.
  assert (Hk : 0 < 100) by reflexivity.
  destruct (X11_ratios_independent_of_unit 100 100 (-30) 70 7000 None Hk)
    as [(r & r' & Hr & Hr' & Hp & _ & _ & Hb) _].
  exists r, r'. repeat split; assumption.
Defined.

(** ** Template goals: loading and lookup *)

Section Reduce.

Import TemplateGoalContext.

Variable send : string -> option TemplateGoalsByCategory.

(** Folding the entries into an object: a requested month maps to the goals
    of its entry, any other month keeps what the object held. *)
Lemma get_after_reduce (months : list string) (month : string) :
  forall all : TemplateGoalsByMonth,
    get month
      (fold_left (fun all '(month, goals) => set month goals all)
         (map (entry send) months) all)
    = if existsb (String.eqb month) months
      then Some (snd (entry send month))
      else get month all.
Proof.
  induction months as [|m months IH]; intros all; [reflexivity|].
  cbn [map fold_left existsb]. rewrite IH.
  assert (E : entry send m = (m, snd (entry send m)))
    by (unfold entry; destruct (send m); reflexivity).
  rewrite E. cbn [set get]. destruct (String.eqb_spec month m) as [->|Hne].
  - rewrite orb_true_l. destruct (existsb (String.eqb m) months); reflexivity.
  - rewrite orb_false_l. reflexivity.
Qed.

End Reduce.

(** X12.  When template goals are enabled and the provider is still mounted,
    the state set by [loadTemplateGoals] gives, for each of the requested
    months, exactly the goals the server sent for it, or the empty object if
    that month's request failed; a failure of one month leaves the others
    intact, and a month that was not requested has the empty object. *)
Theorem X12_goals_for_month_after_load
  (send : string -> option TemplateGoalContext.TemplateGoalsByCategory)
  (months : list string) :
  exists loaded,
    TemplateGoalContext.loadTemplateGoals send true true months
    = Some loaded
    /\ forall month,
         TemplateGoalContext.useTemplateGoalsForMonth loaded month
         = if existsb (String.eqb month) months
           then match send month with
                | Some goals => goals
                | None => []
                end
           else [].
Proof.
  eexists. split; [reflexivity|]. intros month.
  unfold TemplateGoalContext.useTemplateGoalsForMonth.
  rewrite get_after_reduce.
  destruct (existsb (String.eqb month) months); [|reflexivity].
  unfold TemplateGoalContext.entry. destruct (send month); reflexivity.
Qed.

(** X13.  After such a load, [useTemplateGoal] answers a goal for a category
    and month exactly when the month was requested, its request succeeded
    and the goals sent hold a number for the category; a month not
    requested, a failed request, a missing category and a null goal all
    answer null. *)
Theorem X13_goal_lookup_after_load
  (send : string -> option TemplateGoalContext.TemplateGoalsByCategory)
  (months : list string) :
  exists loaded,
    TemplateGoalContext.loadTemplateGoals send true true months
    = Some loaded
    /\ forall categoryId month goal,
         TemplateGoalContext.useTemplateGoal loaded categoryId month
         = Some goal
         <-> In month months
             /\ exists goals,
                  send month = Some goals
                  /\ TemplateGoalContext.get categoryId goals
                     = Some (Some goal).
Proof.
  eexists. split; [reflexivity|]. intros categoryId month goal.
  unfold TemplateGoalContext.useTemplateGoal. rewrite get_after_reduce.
  destruct (existsb (String.eqb month) months) eqn:E.
  - apply existsb_exists in E as (m & Hin & Heq).
    apply String.eqb_eq in Heq. subst m.
    unfold TemplateGoalContext.entry.
    destruct (send month) as [goals|]; cbn [snd].
    + split.
      * intros H. split; [exact Hin|]. exists goals. split; [reflexivity|].
        destruct (TemplateGoalContext.get categoryId goals) as [[g|]|];
          try discriminate H.
        injection H as ->. reflexivity.
      * intros (_ & goals' & Hs & Hg). injection Hs as <-.
        rewrite Hg. reflexivity.
    + split; [discriminate|].
      intros (_ & goals' & Hs & _). discriminate Hs.
  - split; [discriminate|]. intros (Hin & _).
    assert (existsb (String.eqb month) months = true)
      by (apply existsb_exists; exists month; split;
          [exact Hin | apply String.eqb_refl]).
    congruence.
Qed.

(** ** The tooltip headline of the template-aware draft *)




